(** * Bookshelf [Model]: fetch, load, save, destroy and the polymorphic
    relation constructors of [lib/model.js], as a shallow embedding.

    The promise chains of the source are written in a small state and
    rejection monad.  The objects the source mutates (the model [this], the
    cloned [options] hash and the [attrs] hash of [save]) live in a heap that
    every step threads; the calls the source makes to its collaborators
    ([Sync], [EagerRelation], [Relation], the [ModelBase] attribute container
    and the registered event handlers) are recorded, in order, in a trace. *)

From Stdlib Require Import ZArith List Ascii String.
From stdpp Require Import base option gmap strings list fin_maps.

Open Scope string_scope.
Open Scope list_scope.

(** ** JavaScript values *)

(** Numbers are restricted to the integers the code compares against
    ([resp === 0], row counts, ids).  [VRef] stands for any other object:
    a constructor, a function, a query builder, a [Date]. *)
#[warnings="-register-all"]
Inductive value : Type :=
| VUndefined
| VNull
| VBool (b : bool)
| VNum (n : Z)
| VStr (s : string)
| VArr (l : list value)
| VObj (o : gmap string value)
| VRef (r : nat).

Abbreviation object := (gmap string value).

(** [if (v)]: [undefined], [null], [false], [0] and the empty string are falsy. *)
Definition truthy (v : value) : bool :=
  match v with
  | VUndefined | VNull => false
  | VBool b => b
  | VNum n => negb (n =? 0)%Z
  | VStr s => negb (String.eqb s "")
  | VArr _ | VObj _ | VRef _ => true
  end.

(** [o.k]: a missing property reads as [undefined]. *)
Definition prop (o : object) (k : string) : value :=
  default VUndefined (o !! k).

(** [_.isString] and [_.isArray]. *)
Definition isString (v : value) : bool :=
  match v with VStr _ => true | _ => false end.

Definition isArray (v : value) : bool :=
  match v with VArr _ => true | _ => false end.

(** [v == null]. *)
Definition is_nullish (v : value) : bool :=
  match v with VUndefined | VNull => true | _ => false end.

(** [v === null]. *)
Definition is_null (v : value) : bool :=
  match v with VNull => true | _ => false end.

(** [v === 0]. *)
Definition is_zero (v : value) : bool :=
  match v with VNum 0 => true | _ => false end.

(** [v !== false]. *)
Definition is_not_false (v : value) : bool :=
  match v with VBool false => false | _ => true end.

(** ** Errors and completions *)

Inductive error_kind : Type :=
| NotFoundError
| NoRowsUpdatedError
| NoRowsDeletedError
| PlainError
| TypeError.

(** What a promise is rejected with, or a function throws: an error object
    of some kind, or any other value ([Promise.reject(null)]). *)
Inductive reason : Type :=
| Thrown (k : error_kind) (msg : string)
| Raw (v : value).

Definition reason_is_null (e : reason) : bool :=
  match e with Raw v => is_null v | Thrown _ _ => false end.

Inductive outcome (A : Type) : Type :=
| Resolved (a : A)
| Rejected (e : reason).

Arguments Resolved {A} a.
Arguments Rejected {A} e.

(** How a synchronous method completes. *)
Inductive completion (A : Type) : Type :=
| Returns (a : A)
| Throws (e : reason).

Arguments Returns {A} a.
Arguments Throws {A} e.

(** What a model method resolves to: the model itself ([this], whose state
    is in the heap) or a plain value. *)
Inductive settled : Type :=
| This
| Plain (v : value).

(** [resp[0]].  Reading a property of [undefined] or [null] is a
    [TypeError]; a number or boolean has no such property, and neither has
    an opaque object as far as this model knows. *)
Definition index0 (v : value) : outcome value :=
  match v with
  | VUndefined | VNull => Rejected (Thrown TypeError "Cannot read property '0'")
  | VArr l => Resolved (List.hd VUndefined l)
  | VStr (String c _) => Resolved (VStr (String c ""))
  | VStr EmptyString => Resolved VUndefined
  | VObj o => Resolved (prop o "0")
  | VBool _ | VNum _ | VRef _ => Resolved VUndefined
  end.

(** ** The model and the heap *)

(** [relatedData]: the relation a model was reached through. *)
Record related : Type := {
  rel_type : string;
  rel_isJoined : bool
}.

(** What [Model.extend] and the relation that built the instance fix before
    any of the methods below runs; none of them assigns these properties. *)
Record prototype : Type := {
  idAttribute : string;
  hasTimestamps : value;
  defaults : option object;
  relatedData : option related
}.

(** The state of one instance. *)
Record model : Type := {
  attributes : object;
  id : value;
  _previousAttributes : object;
  changed : object;
  relations : object
}.

Definition with_attributes (a : object) (m : model) : model :=
  {| attributes := a; id := id m;
     _previousAttributes := _previousAttributes m; changed := changed m;
     relations := relations m |}.

Definition with_id (v : value) (m : model) : model :=
  {| attributes := attributes m; id := v;
     _previousAttributes := _previousAttributes m; changed := changed m;
     relations := relations m |}.

Definition with_relations (r : object) (m : model) : model :=
  {| attributes := attributes m; id := id m;
     _previousAttributes := _previousAttributes m; changed := changed m;
     relations := r |}.

(** The mutable objects one call works on. *)
Record heap : Type := {
  this : model;
  options : object;
  attrs : object
}.

Definition with_this (m : model) (h : heap) : heap :=
  {| this := m; options := options h; attrs := attrs h |}.

Definition with_options (o : object) (h : heap) : heap :=
  {| this := this h; options := o; attrs := attrs h |}.

Definition with_attrs (a : object) (h : heap) : heap :=
  {| this := this h; options := options h; attrs := a |}.

(** ** Calls to collaborators, as they are recorded *)

Inductive event : Type :=
| CallFirst                                         (* this.sync(options).first() *)
| CallSync (method : string) (data : object)        (* sync[method](data) *)
| CallDel                                           (* sync.del() *)
| CallTrigger (names : string) (arg : value)        (* this.triggerThen(names, this, arg, options) *)
| CallSet (data : object)                           (* this.set(data, {silent: true}) *)
| CallReset                                         (* this._reset() *)
| CallClear                                         (* this.clear() *)
| CallParsePivot                                    (* relatedData.parsePivot([this]) *)
| CallTimestamp (method : string)                   (* this.timestamp({method: method, silent: true}) *)
| CallSaveConstraints                               (* Helpers.saveConstraints(this, relatedData) *)
| CallEager (response : list object) (opts : object)(* new EagerRelation([this], response, this).fetch(opts) *)
| CallRelation (type : string) (target : value) (opts : object). (* this._relation(type, Target, opts) *)

Definition is_write (ev : event) : bool :=
  match ev with CallSync _ _ | CallDel => true | _ => false end.

Definition is_eager (ev : event) : bool :=
  match ev with CallEager _ _ => true | _ => false end.

(** ** The collaborators

    None of these is defined in [lib/model.js]; the methods of the model are
    written over any behaviour they may have. *)
Record collaborators : Type := {
  (* ModelBase, the attribute container *)
  set : object -> model -> model;
  parse : object -> object;
  format : object -> object;
  _reset : model -> model;
  clear : model -> model;
  saveMethod : model -> object -> string;
  timestamp : string -> model -> object * model;
  (* registered event handlers: they see and may change the model, the
     options and (for save) the attrs, and may fail *)
  triggerThen : string -> value -> heap -> outcome unit * heap;
  (* Sync *)
  sync_query : heap -> value;
  sync_first : heap -> outcome (option (list object)) * heap;
  sync_write : string -> object -> heap -> outcome value;
  sync_del : heap -> outcome value;
  (* Relation and Helpers *)
  parsePivot : model -> model;
  saveConstraints : related -> model -> model;
  _relation : string -> value -> object -> model -> value;
  (* EagerRelation *)
  eager_fetch : list object -> object -> model -> outcome unit * model
}.

(** ** Promise chains *)

Definition state : Type := heap * list event.

Definition promise (A : Type) : Type := state -> outcome A * state.

Definition ret {A} (a : A) : promise A := fun s => (Resolved a, s).

Definition throw {A} (e : reason) : promise A := fun s => (Rejected e, s).

(** [p.then(f)] *)
Definition bind {A B} (p : promise A) (f : A -> promise B) : promise B :=
  fun s =>
    match p s with
    | (Resolved a, s') => f a s'
    | (Rejected e, s') => (Rejected e, s')
    end.

(** [p.catch(f)] *)
Definition catch {A} (p : promise A) (f : reason -> promise A) : promise A :=
  fun s =>
    match p s with
    | (Resolved a, s') => (Resolved a, s')
    | (Rejected e, s') => f e s'
    end.

Notation "x <- p ;; q" := (bind p (fun x => q))
  (at level 100, p at next level, right associativity).
Notation "p ;;; q" := (bind p (fun _ => q))
  (at level 100, right associativity).

(** [p.tap(f)]: run [f] for its effect, keep the value. *)
Definition tap {A B} (p : promise A) (f : A -> promise B) : promise A :=
  x <- p ;; (f x ;;; ret x).

Definition get_heap : promise heap := fun s => (Resolved (fst s), s).

Definition put_heap (h : heap) : promise unit :=
  fun s => (Resolved tt, (h, snd s)).

Definition log (ev : event) : promise unit :=
  fun s => (Resolved tt, (fst s, snd s ++ [ev])).

Definition modify_this (f : model -> model) : promise unit :=
  h <- get_heap ;; put_heap (with_this (f (this h)) h).

Definition modify_options (f : object -> object) : promise unit :=
  h <- get_heap ;; put_heap (with_options (f (options h)) h).

Definition modify_attrs (f : object -> object) : promise unit :=
  h <- get_heap ;; put_heap (with_attrs (f (attrs h)) h).

(** [options = options ? _.clone(options) : {}] *)
Definition put_heap_options (o : object) : promise unit :=
  modify_options (fun _ => o).

(** A collaborator that works on the whole heap. *)
Definition on_heap {A} (f : heap -> outcome A * heap) : promise A :=
  fun s => let '(r, h') := f (fst s) in (r, (h', snd s)).

Definition of_outcome {A} (r : outcome A) : promise A :=
  fun s => (r, s).

(** Start a call on model [m] with empty options and attrs. *)
Definition start (m : model) : state :=
  ({| this := m; options := ∅; attrs := ∅ |}, []).

(** ** The methods of [lib/model.js] *)

Section Model.

Variable W : collaborators.
Variable P : prototype.

(** [this.triggerThen(names, this, arg, options)] *)
Definition trigger (names : string) (arg : value) : promise unit :=
  log (CallTrigger names arg) ;;; on_heap (triggerThen W names arg).

(** [this.set(data, {silent: true})] *)
Definition call_set (data : object) : promise unit :=
  log (CallSet data) ;;; modify_this (set W data).

(** [this._reset()] *)
Definition call_reset : promise unit :=
  log CallReset ;;; modify_this (_reset W).

(** [var sync = this.sync(options); options.query = sync.query;] *)
Definition expose_query : promise unit :=
  h <- get_heap ;;
  modify_options (fun o => <["query" := sync_query W h]> o).

(** [_handleResponse]: load the first row of the response into the model,
    then parse the pivot columns when the model came through a joined
    relation. *)
Definition _handleResponse (response : list object) : promise unit :=
  call_set (parse W (List.hd ∅ response)) ;;;
  call_reset ;;;
  match relatedData P with
  | Some rd =>
      if rel_isJoined rd
      then log CallParsePivot ;;; modify_this (parsePivot W)
      else ret tt
  | None => ret tt
  end.

(** [_handleEager]: [new EagerRelation([this], response, this).fetch(options)] *)
Definition _handleEager (response : list object) (opts : object) : promise unit :=
  log (CallEager response opts) ;;;
  on_heap (fun h =>
    let '(r, m') := eager_fetch W response opts (this h) in
    (r, with_this m' h)).

(** [!response || response.length === 0] *)
Definition no_rows (response : option (list object)) : bool :=
  match response with
  | None | Some [] => true
  | Some (_ :: _) => false
  end.

Definition rows (response : option (list object)) : list object :=
  default [] response.

(** [fetch(options)].  [opts = None] is a call without options. *)
Definition fetch (opts : option object) : promise settled :=
  catch
    (put_heap_options (default ∅ opts) ;;;
     response <- tap
       (tap
         (tap
           (tap (log CallFirst ;;; on_heap (sync_first W))
             (* Jump the rest of the chain if the response doesn't exist... *)
             (fun response =>
                if no_rows response then
                  h <- get_heap ;;
                  if truthy (prop (options h) "require")
                  then throw (Thrown NotFoundError "EmptyResponse")
                  else throw (Raw VNull)
                else ret tt))
           (* Now, load all of the data into the model as necessary. *)
           (fun response => _handleResponse (rows response)))
         (* eager load, with the [columns] omitted from the options *)
         (fun response =>
            h <- get_heap ;;
            if truthy (prop (options h) "withRelated")
            then _handleEager (rows response) (delete "columns" (options h))
            else ret tt))
       (fun response =>
          trigger "fetched" (VArr (VObj <$> rows response))) ;;
     ret This)
    (fun err => if reason_is_null err then ret (Plain VNull) else throw err).

(** [load(relations, options)] *)
Definition load (relations : value) (opts : option object) : promise settled :=
  h <- get_heap ;;
  let response := [format W (attributes (this h))] in
  _handleEager response
    ({[ "shallow" := VBool true;
        "withRelated" := if isArray relations then relations
                         else VArr [relations] ]} ∪ default ∅ opts) ;;;
  ret This.

(** The two call shapes of [save]: [save(attrs, options)], taken when
    [key == null || typeof key === "object"], and [save(key, val, options)]. *)
Inductive save_args : Type :=
| SaveAttrs (a : option object) (opts : option object)
| SaveKeyVal (key : string) (val : value) (opts : option object).

Definition save_attrs (args : save_args) : object :=
  match args with
  | SaveAttrs a _ => default ∅ a
  | SaveKeyVal key val _ => {[ key := val ]}
  end.

Definition save_options (args : save_args) : object :=
  match args with
  | SaveAttrs _ opts | SaveKeyVal _ _ opts => default ∅ opts
  end.

(** [sync[options.method](data)] *)
Definition call_sync (method : value) (data : object) : promise value :=
  match method with
  | VStr m =>
      log (CallSync m data) ;;;
      h <- get_heap ;; of_outcome (sync_write W m data h)
  | _ => throw (Thrown TypeError "undefined is not a function")
  end.

(** The head of [save], up to the pre-save events: choose the method,
    merge the defaults, set the attributes, stamp them, apply the save
    constraints, expose the query.  Resolves to the chosen method.  (The
    value of the leading [this.isNew(options)] is not used by the source.) *)
Definition save_prepare (args : save_args) : promise string :=
  h <- get_heap ;;
  put_heap {| this := this h; options := save_options args;
              attrs := save_attrs args |} ;;;
  h <- get_heap ;;
  (* Determine whether which kind of save we will do, update or insert. *)
  let method := saveMethod W (this h) (options h) in
  modify_options (fun o => <["method" := VStr method]> o) ;;;
  (if (method =? "insert") || truthy (prop (options h) "defaults") then
     match defaults P with
     | Some d => modify_attrs (fun a => a ∪ attributes (this h) ∪ d)
     | None => ret tt
     end
   else ret tt) ;;;
  h <- get_heap ;;
  call_set (attrs h) ;;;
  h <- get_heap ;;
  (if truthy (hasTimestamps P) then
     log (CallTimestamp method) ;;;
     let '(vals, m') := timestamp W method (this h) in
     put_heap (with_attrs (vals ∪ attrs h) (with_this m' h))
   else ret tt) ;;;
  match relatedData P with
  | Some rd =>
      if negb (rel_type rd =? "morphTo")
      then log CallSaveConstraints ;;; modify_this (saveConstraints W rd)
      else ret tt
  | None => ret tt
  end ;;;
  expose_query ;;;
  ret method.

(** The handler of the write's response. *)
Definition save_response (method : string) (resp : value) : promise unit :=
  h <- get_heap ;;
  (if (method =? "insert") && is_nullish (id (this h)) then
     v <- of_outcome (index0 resp) ;;
     modify_this (fun m =>
       with_attributes (<[idAttribute P := v]> (attributes m)) (with_id v m))
   else if (method =? "update") && is_zero resp then
     if is_not_false (prop (options h) "require")
     then throw (Thrown NoRowsUpdatedError "No Rows Updated")
     else ret tt
   else ret tt) ;;;
  h <- get_heap ;;
  modify_options
    (fun o => <["previousAttributes" := VObj (_previousAttributes (this h))]> o) ;;;
  call_reset ;;;
  trigger (if method =? "insert" then "created saved" else "updated saved") resp.

(** [save(key, val, options)] *)
Definition save (args : save_args) : promise settled :=
  method <- save_prepare args ;;
  h <- get_heap ;;
  trigger (if method =? "insert" then "creating saving" else "updating saving")
          (VObj (attrs h)) ;;;
  h <- get_heap ;;
  resp <- call_sync (prop (options h) "method")
            (if (method =? "update") && truthy (prop (options h) "patch")
             then attrs h else attributes (this h)) ;;
  save_response method resp ;;;
  ret This.

(** [destroy(options)] *)
Definition destroy (opts : option object) : promise settled :=
  put_heap_options (default ∅ opts) ;;;
  expose_query ;;;
  trigger "destroying" VUndefined ;;;
  h <- get_heap ;;
  resp <- (log CallDel ;;; of_outcome (sync_del W h)) ;;
  h <- get_heap ;;
  (if truthy (prop (options h) "require") && is_zero resp
   then throw (Thrown NoRowsDeletedError "No Rows Deleted")
   else ret tt) ;;;
  log CallClear ;;;
  modify_this (clear W) ;;;
  trigger "destroyed" resp ;;;
  call_reset ;;;
  ret This.

(** *** Polymorphic relations (synchronous) *)

(** [morphTo(morphName, [columnNames], ...Target)], on the [arguments] list. *)
Definition morphTo (m : model) (arguments : list value)
  : completion value * list event :=
  let morphName := nth 0 arguments VUndefined in
  if negb (isString morphName)
  then (Throws (Thrown PlainError "The `morphTo` name must be specified."), [])
  else
    let '(columnNames, remainder) :=
      if isArray (nth 1 arguments VUndefined)
      then (nth 1 arguments VUndefined, skipn 2 arguments)
      else (VNull, skipn 1 arguments) in
    let o : object :=
      {[ "morphName" := morphName; "columnNames" := columnNames;
         "candidates" := VArr remainder ]} in
    (Returns (_relation W "morphTo" VNull o m), [CallRelation "morphTo" VNull o]).

(** Helper for setting up the [morphOne] or [morphMany] relations. *)
Definition _morphOneOrMany (m : model)
    (Target morphName columnNames morphValue : value) (type : string)
  : completion value * list event :=
  let '(morphValue, columnNames) :=
    if negb (isArray columnNames) then (columnNames, VNull)
    else (morphValue, columnNames) in
  if negb (truthy morphName) || negb (truthy Target)
  then (Throws (Thrown PlainError
                  "The polymorphic `name` and `Target` are required."), [])
  else
    let o : object :=
      {[ "morphName" := morphName; "morphValue" := morphValue;
         "columnNames" := columnNames ]} in
    (Returns (_relation W type Target o m), [CallRelation type Target o]).

Definition morphOne (m : model) (Target name columnNames morphValue : value) :=
  _morphOneOrMany m Target name columnNames morphValue "morphOne".

Definition morphMany (m : model) (Target name columnNames morphValue : value) :=
  _morphOneOrMany m Target name columnNames morphValue "morphMany".

End Model.

(** Run a method on a model, from an empty trace. *)
Definition run {A} (p : promise A) (m : model) : outcome A * state :=
  p (start m).

Definition result_of {A} (r : outcome A * state) : outcome A := fst r.
Definition heap_of {A} (r : outcome A * state) : heap := fst (snd r).
Definition trace_of {A} (r : outcome A * state) : list event := snd (snd r).

(** *** The plain relations (synchronous) *)

Section Relations.

Variable W : collaborators.





End Relations.

(** ** The eager-load engine *)

Module Eager.

(** The part of a relation path before its first dot. *)
Fixpoint first_segment (path : string) : string :=
  match path with
  | EmptyString => EmptyString
  | String c rest =>
      if Ascii.eqb c "."%char then EmptyString
      else String c (first_segment rest)
  end.

(** The requested paths: [withRelated] is one path or an array of paths. *)
Definition paths (withRelated : value) : list string :=
  match withRelated with
  | VStr s => [s]
  | VArr l => omap (fun v => match v with VStr s => Some s | _ => None end) l
  | _ => []
  end.

(** The distinct relation names at this level. *)
Definition names (withRelated : value) : list string :=
  remove_dups (first_segment <$> paths withRelated).

(** Resolve every name, or fail as a whole. *)
Fixpoint resolve_all (resolve : string -> outcome value) (ns : list string)
  : outcome (list (string * value)) :=
  match ns with
  | [] => Resolved []
  | n :: rest =>
      match resolve n with
      | Rejected e => Rejected e
      | Resolved v =>
          match resolve_all resolve rest with
          | Rejected e => Rejected e
          | Resolved vs => Resolved ((n, v) :: vs)
          end
      end
  end.

Definition attach (m : model) (nv : string * value) : model :=
  with_relations (<[fst nv := snd nv]> (relations m)) m.

(** Modelled from the spec: the eager-load engine [EagerRelation#fetch]
    ([lib/eager.js] and [lib/base/eager.js]; [lib/model.js] only calls it).
    Section 4.3: the requested paths are partitioned by their first
    segment; each distinct relation name is resolved from the root rows (one
    batched query, here the oracle [resolve], which fails for a relation that
    is not declared or a query that is rejected); the resolved value is
    attached to the root's [relations] map under the relation name; a failure
    fails the whole operation and no partial attachment is surfaced. *)
Definition fetchEager
    (resolve : string -> value -> list object -> object -> outcome value)
    (response : list object) (opts : object) (m : model)
  : outcome unit * model :=
  let wr := prop opts "withRelated" in
  match resolve_all (fun n => resolve n wr response opts) (names wr) with
  | Rejected e => (Rejected e, m)
  | Resolved nvs => (Resolved tt, foldl attach m nvs)
  end.

End Eager.

(** The collaborators [W] with the engine of the specification in the place
    of [eager_fetch]. *)
Definition with_engine
    (resolve : string -> value -> list object -> object -> outcome value)
    (W : collaborators) : collaborators :=
  {| set := set W; parse := parse W; format := format W; _reset := _reset W;
     clear := clear W; saveMethod := saveMethod W; timestamp := timestamp W;
     triggerThen := triggerThen W; sync_query := sync_query W;
     sync_first := sync_first W; sync_write := sync_write W;
     sync_del := sync_del W; parsePivot := parsePivot W;
     saveConstraints := saveConstraints W; _relation := _relation W;
     eager_fetch := Eager.fetchEager resolve |}.

(** ** A sample of collaborators, for running the methods on concrete
    inputs *)

Module Sample.

(** Modelled from the spec: the attribute container ([ModelBase],
    [lib/base/model.js]; [lib/model.js] only extends it).  Section 6: it
    gets and sets attributes, tracks the previous attributes and tells a new
    instance by its missing identity.  Here [set] merges the given attributes
    and follows the id attribute, [_reset] snapshots, [clear] empties, and a
    model without id is inserted. *)
Definition merge_set (idAttr : string) (data : object) (m : model) : model :=
  with_attributes (data ∪ attributes m)
    (match data !! idAttr with Some v => with_id v m | None => m end).

Definition snapshot (m : model) : model :=
  {| attributes := attributes m; id := id m;
     _previousAttributes := attributes m; changed := ∅;
     relations := relations m |}.

Definition wipe (m : model) : model :=
  with_attributes ∅ (with_id VUndefined m).

Definition choose_method (m : model) (opts : object) : string :=
  match opts !! "method" with
  | Some (VStr s) => s
  | _ => if is_nullish (id m) then "insert" else "update"
  end.

(** The current time, as an opaque [Date]. *)
Definition now : value := VRef 0.

Definition stamp (idAttr : string) (method : string) (m : model)
  : object * model :=
  let vals : object :=
    if method =? "insert"
    then {[ "created_at" := now; "updated_at" := now ]}
    else {[ "updated_at" := now ]} in
  (vals, merge_set idAttr vals m).

(** The database and the handlers are given per example. *)
Record backend : Type := {
  on_event : string -> value -> heap -> outcome unit * heap;
  select : outcome (option (list object));
  write : string -> object -> outcome value;
  del : outcome value;
  related_rows : string -> outcome value
}.

Definition quiet (names : string) (arg : value) (h : heap)
  : outcome unit * heap := (Resolved tt, h).

Definition world (idAttr : string) (B : backend) : collaborators :=
  {| set := merge_set idAttr;
     parse := fun row => row;
     format := fun a => a;
     _reset := snapshot;
     clear := wipe;
     saveMethod := choose_method;
     timestamp := stamp idAttr;
     triggerThen := on_event B;
     sync_query := fun _ => VRef 1;
     sync_first := fun h => (select B, h);
     sync_write := fun method data _ => write B method data;
     sync_del := fun _ => del B;
     parsePivot := fun m => m;
     saveConstraints := fun _ m => m;
     _relation := fun _ _ _ _ => VRef 2;
     eager_fetch :=
       Eager.fetchEager (fun name _ _ _ => related_rows B name) |}.

Definition plain : prototype :=
  {| idAttribute := "id"; hasTimestamps := VBool false;
     defaults := None; relatedData := None |}.

Definition stamped : prototype :=
  {| idAttribute := "id"; hasTimestamps := VBool true;
     defaults := None; relatedData := None |}.

Definition blank : model :=
  {| attributes := ∅; id := VUndefined; _previousAttributes := ∅;
     changed := ∅; relations := ∅ |}.

(** A saved row: [{id: 1, title: "X"}]. *)
Definition book : model :=
  {| attributes := {[ "id" := VNum 1; "title" := VStr "X" ]};
     id := VNum 1; _previousAttributes := ∅; changed := ∅;
     relations := ∅ |}.

(** A database in which nothing matches. *)
Definition empty_db : backend :=
  {| on_event := quiet; select := Resolved (Some []);
     write := fun _ _ => Resolved (VNum 0); del := Resolved (VNum 0);
     related_rows := fun _ => Resolved (VArr []) |}.

(** The library of the specification's scenario: one book, its genre and
    its two editions. *)
Definition book_row : object :=
  {[ "id" := VNum 1; "title" := VStr "X"; "genre_id" := VNum 7 ]}.

Definition library_db : backend :=
  {| on_event := quiet; select := Resolved (Some [book_row]);
     write := fun _ _ => Resolved (VNum 1); del := Resolved (VNum 1);
     related_rows := fun name =>
       if name =? "genre" then Resolved (VObj {[ "id" := VNum 7 ]})
       else if name =? "editions"
       then Resolved (VArr [VObj {[ "book_id" := VNum 1 ]};
                            VObj {[ "book_id" := VNum 1 ]}])
       else Rejected (Thrown PlainError "relation is not defined on the model.") |}.

(** [{withRelated: ['genre', 'editions'], columns: ['id', 'title']}] *)
Definition related_options : object :=
  {[ "withRelated" := VArr [VStr "genre"; VStr "editions"];
     "columns" := VArr [VStr "id"; VStr "title"] ]}.

(** Handlers that refuse every event (a failed validation). *)
Definition refuse (names : string) (arg : value) (h : heap)
  : outcome unit * heap :=
  (Rejected (Thrown PlainError "validation failed"), h).

Definition strict_db : backend :=
  {| on_event := refuse; select := Resolved (Some [book_row]);
     write := fun _ _ => Resolved (VNum 1); del := Resolved (VNum 1);
     related_rows := fun _ => Resolved (VArr []) |}.

(** A [creating] handler that gives the model its own key, as with a uuid
    primary key; the database answers the insert with its row id. *)
Definition assign_key (names : string) (arg : value) (h : heap)
  : outcome unit * heap :=
  if names =? "creating saving"
  then (Resolved tt,
        with_this (merge_set "id" {[ "id" := VStr "abc" ]} (this h)) h)
  else (Resolved tt, h).

Definition keyed_db : backend :=
  {| on_event := assign_key; select := Resolved (Some []);
     write := fun _ _ => Resolved (VArr [VNum 1]); del := Resolved (VNum 1);
     related_rows := fun _ => Resolved (VArr []) |}.

(** A database that assigns the id 1 to what is inserted. *)
Definition serial_db : backend :=
  {| on_event := quiet; select := Resolved (Some []);
     write := fun _ _ => Resolved (VArr [VNum 1]); del := Resolved (VNum 1);
     related_rows := fun _ => Resolved (VArr []) |}.

End Sample.

(** ** Notions used in the statements *)

(** The options [load] hands to the engine. *)
Definition load_options (relations : value) (opts : option object) : object :=
  {[ "shallow" := VBool true;
     "withRelated" := if isArray relations then relations
                      else VArr [relations] ]} ∪ default ∅ opts.

(** The heap on which [fetch] and [destroy] start: the model, the clone of
    the caller's options (or [{}]), no attrs. *)
Definition entry_heap (m : model) (opts : option object) : heap :=
  {| this := m; options := default ∅ opts; attrs := ∅ |}.

(** The pivot step of [_handleResponse], when the model came through a
    joined relation. *)
Definition is_joined (P : prototype) : bool :=
  match relatedData P with
  | Some rd => rel_isJoined rd
  | None => false
  end.

Definition pivot_calls (P : prototype) : list event :=
  if is_joined P then [CallParsePivot] else [].

(** The model once [_handleResponse] has loaded [row] into it. *)
Definition loaded (W : collaborators) (P : prototype) (row : object)
    (m : model) : model :=
  let m' := _reset W (set W (parse W row) m) in
  if is_joined P then parsePivot W m' else m'.

(** The final [catch] of [fetch], on the outcome of the chain before it. *)
Definition settle_fetch (r : outcome unit) : outcome settled :=
  match r with
  | Resolved _ => Resolved This
  | Rejected e =>
      if reason_is_null e then Resolved (Plain VNull) else Rejected e
  end.

(** The last step of a successful [fetch]: the [fetched] event. *)
Definition fetched_step (W : collaborators) (response : list object)
    (s : state) : outcome settled * state :=
  let arg := VArr (VObj <$> response) in
  let '(r, h') := triggerThen W "fetched" arg (fst s) in
  (settle_fetch r, (h', snd s ++ [CallTrigger "fetched" arg])).

(** The heap the [destroying] handlers receive: the query is exposed in
    the options. *)
Definition destroy_heap (W : collaborators) (m : model)
    (opts : option object) : heap :=
  let h := entry_heap m opts in
  with_options (<["query" := sync_query W h]> (options h)) h.

(** *** [save], stage by stage *)

Section Prepared.

Variable W : collaborators.
Variable P : prototype.
Variable m : model.
Variable args : save_args.

(** The kind of save: [this.saveMethod(options)]. *)
Definition save_method : string := saveMethod W m (save_options args).

(** The attrs once the defaults are merged in. *)
Definition merged_attrs : object :=
  if (save_method =? "insert") || truthy (prop (save_options args) "defaults")
  then match defaults P with
       | Some d => save_attrs args ∪ attributes m ∪ d
       | None => save_attrs args
       end
  else save_attrs args.

(** The model after [set] and, with [hasTimestamps], after [timestamp]. *)
Definition stamped_model : model :=
  let m1 := set W merged_attrs m in
  if truthy (hasTimestamps P) then snd (timestamp W save_method m1) else m1.

Definition stamped_attrs : object :=
  if truthy (hasTimestamps P)
  then fst (timestamp W save_method (set W merged_attrs m)) ∪ merged_attrs
  else merged_attrs.

(** The relation whose save constraints apply, if any. *)
Definition constraint_of : option related :=
  match relatedData P with
  | Some rd => if negb (rel_type rd =? "morphTo") then Some rd else None
  | None => None
  end.

Definition prepared_model : model :=
  match constraint_of with
  | Some rd => saveConstraints W rd stamped_model
  | None => stamped_model
  end.

(** The heap the pre-save handlers receive. *)
Definition prepared : heap :=
  let h := {| this := prepared_model;
              options := <["method" := VStr save_method]> (save_options args);
              attrs := stamped_attrs |} in
  with_options (<["query" := sync_query W h]> (options h)) h.

(** The calls made up to that point. *)
Definition prepare_trace : list event :=
  [CallSet merged_attrs]
  ++ (if truthy (hasTimestamps P) then [CallTimestamp save_method] else [])
  ++ (match constraint_of with Some _ => [CallSaveConstraints] | None => [] end).

(** The pre-save events. *)
Definition pre_events : string :=
  if save_method =? "insert" then "creating saving" else "updating saving".

End Prepared.

(** What the write is given: the attrs for a patching update, the model's
    attributes otherwise. *)
Definition write_data (method : string) (h : heap) : object :=
  if (method =? "update") && truthy (prop (options h) "patch")
  then attrs h else attributes (this h).

(** [save] from the response of the write on. *)
Definition after_write (W : collaborators) (P : prototype) (method : string)
    (resp : value) : promise settled :=
  save_response W P method resp ;;; ret This.

(** A promise rejected with an error of kind [k]. *)
Definition rejects_with {A} (k : error_kind) (r : outcome A) : Prop :=
  exists msg : string, r = Rejected (Thrown k msg).

(** The tail of [save]: remember the previous attributes in the options,
    [_reset], then the post-save events. *)
Definition saved_step (W : collaborators) (names : string) (resp : value)
    (s : state) : outcome settled * state :=
  let h := fst s in
  let h2 :=
    with_this (_reset W (this h))
      (with_options
         (<["previousAttributes" := VObj (_previousAttributes (this h))]>
            (options h)) h) in
  let tr := snd s ++ [CallReset; CallTrigger names resp] in
  match triggerThen W names resp h2 with
  | (Resolved _, h3) => (Resolved This, (h3, tr))
  | (Rejected e, h3) => (Rejected e, (h3, tr))
  end.


(** *** The writing operations, taken together *)

Inductive operation : Type :=
| Save (args : save_args)
| Destroy (opts : option object).

Definition perform (W : collaborators) (P : prototype) (op : operation)
  : promise settled :=
  match op with
  | Save args => save W P args
  | Destroy opts => destroy W opts
  end.

(** The events triggered before the write, their argument, and the heap the
    handlers receive. *)
Definition pre_names (W : collaborators) (m : model) (op : operation)
  : string :=
  match op with
  | Save args => pre_events W m args
  | Destroy _ => "destroying"
  end.

Definition pre_heap (W : collaborators) (P : prototype) (m : model)
    (op : operation) : heap :=
  match op with
  | Save args => prepared W P m args
  | Destroy opts => destroy_heap W m opts
  end.

Definition pre_arg (W : collaborators) (P : prototype) (m : model)
    (op : operation) : value :=
  match op with
  | Save args => VObj (attrs (prepared W P m args))
  | Destroy _ => VUndefined
  end.

(** *** Further inputs *)

Module Cases.

(** A database that is down: every query is rejected. *)
Definition lost : reason := Thrown PlainError "connection lost".

Definition down_db : Sample.backend :=
  {| Sample.on_event := Sample.quiet; Sample.select := Rejected lost;
     Sample.write := fun _ _ => Rejected lost; Sample.del := Rejected lost;
     Sample.related_rows := fun _ => Rejected lost |}.

(** A database that answers every write with [undefined]. *)
Definition void_db : Sample.backend :=
  {| Sample.on_event := Sample.quiet; Sample.select := Resolved (Some []);
     Sample.write := fun _ _ => Resolved VUndefined;
     Sample.del := Resolved VUndefined;
     Sample.related_rows := fun _ => Resolved (VArr []) |}.

(** Handlers that pass the events before a write and refuse those after. *)
Definition refuse_after (names : string) (arg : value) (h : heap)
  : outcome unit * heap :=
  if (names =? "destroyed") || (names =? "created saved")
     || (names =? "updated saved") || (names =? "fetched")
  then (Rejected (Thrown PlainError "handler failed"), h)
  else (Resolved tt, h).

Definition late_db : Sample.backend :=
  {| Sample.on_event := refuse_after;
     Sample.select := Resolved (Some [Sample.book_row]);
     Sample.write := fun _ _ => Resolved (VNum 1);
     Sample.del := Resolved (VNum 1);
     Sample.related_rows := fun _ => Resolved (VArr []) |}.

(** A model class with defaults and timestamps. *)
Definition drafted : prototype :=
  {| idAttribute := "id"; hasTimestamps := VBool true;
     defaults := Some {[ "status" := VStr "draft"; "title" := VStr "untitled" ]};
     relatedData := None |}.

(** A model reached through a joined relation. *)
Definition joined : prototype :=
  {| idAttribute := "id"; hasTimestamps := VBool false; defaults := None;
     relatedData := Some {| rel_type := "belongsToMany"; rel_isJoined := true |} |}.

(** [{patch: true}] and [{withRelated: ['authors']}] *)
Definition patching : object := {[ "patch" := VBool true ]}.

Definition unknown_related : object :=
  {[ "withRelated" := VArr [VStr "authors"] ]}.

End Cases.

(** The calls of a trace that go to the database as writes. *)
Definition writes (tr : list event) : list event := List.filter is_write tr.

(** * Properties *)

Ltac chain :=
  repeat progress
    (unfold run, start, result_of, heap_of, trace_of, tap, trigger, call_set,
       call_reset, expose_query, put_heap_options, modify_this,
       modify_options, modify_attrs, on_heap, of_outcome, put_heap, get_heap,
       log, catch, bind, ret, throw, with_this, with_options, with_attrs
     in *);
  simpl in *.

Section Load.

Variable W : collaborators.

Lemma load_trace (m : model) (relations : value) (opts : option object) :
  trace_of (run (load W relations opts) m)
  = [CallEager [format W (attributes m)] (load_options relations opts)].
Proof.
  unfold load, _handleEager. chain.
  destruct (eager_fetch W _ _ m) as [[[]|e] m']; reflexivity.
Qed.

(** C9: every call to [load] makes exactly one call to the eager-load
    engine, and the options of that call have [shallow] set to [true],
    whatever the caller supplied for it, and [withRelated] equal to the given
    relations when they are an array and to the one-element array of the
    given relation otherwise; every other option is the caller's. *)
Theorem load_passes_shallow_and_withRelated
    (m : model) (relations : value) (opts : option object) :
  exists o : object,
    trace_of (run (load W relations opts) m)
    = [CallEager [format W (attributes m)] o]
    /\ o !! "shallow" = Some (VBool true)
    /\ o !! "withRelated"
       = Some (if isArray relations then relations else VArr [relations])
    /\ forall k : string,
         k <> "shallow" -> k <> "withRelated" ->
         o !! k = default ∅ opts !! k.
Proof.
  exists (load_options relations opts). split; [apply load_trace|].
  unfold load_options. repeat split.
  - apply lookup_union_Some_l. by rewrite lookup_insert_eq.
  - apply lookup_union_Some_l.
    rewrite lookup_insert_ne by done. by rewrite lookup_singleton_eq.
  - intros k Hs Hw.
    apply lookup_union_r.
    rewrite lookup_insert_ne by done. by rewrite lookup_singleton_ne.
Qed.

End Load.

Section Polymorphic.

Variable W : collaborators.

(** C7: a polymorphic relation constructed without its identifying
    information throws a configuration error before anything is built:
    [morphTo] when its first argument is not a string (also when there is no
    argument at all), [morphOne] and [morphMany] when the morph name or the
    [Target] is missing (falsy).  In each case no relation is constructed, so
    no query is built. *)
Theorem morph_relations_require_name_and_target
    (m : model) (arguments : list value)
    (Target name columnNames morphValue : value) :
  (isString (nth 0 arguments VUndefined) = false ->
   morphTo W m arguments
   = (Throws (Thrown PlainError "The `morphTo` name must be specified."), []))
  /\
  (truthy name = false \/ truthy Target = false ->
   morphOne W m Target name columnNames morphValue
   = (Throws (Thrown PlainError
                "The polymorphic `name` and `Target` are required."), [])
   /\
   morphMany W m Target name columnNames morphValue
   = (Throws (Thrown PlainError
                "The polymorphic `name` and `Target` are required."), [])).
Proof.
  split.
  - intros Hs. unfold morphTo. by rewrite Hs.
  - intros Hmissing. unfold morphOne, morphMany, _morphOneOrMany.
    assert (negb (truthy name) || negb (truthy Target) = true) as Hguard.
    { destruct Hmissing as [-> | ->]; [done|]. apply orb_true_r. }
    destruct (negb (isArray columnNames)); rewrite Hguard; done.
Qed.

(** With a string name, resp. a name and a target, the relation is built. *)
Lemma morphTo_builds (m : model) (s : string) (rest : list value) :
  exists o, morphTo W m (VStr s :: rest)
            = (Returns (_relation W "morphTo" VNull o m),
               [CallRelation "morphTo" VNull o]).
Proof.
  unfold morphTo. simpl.
  destruct (isArray (nth 0 rest VUndefined)); eauto.
Qed.

End Polymorphic.

Section Fetch.

Variable W : collaborators.
Variable P : prototype.

Lemma handleResponse_run (row : object) (rest : list object) (h : heap)
    (tr : list event) :
  _handleResponse W P (row :: rest) (h, tr)
  = (Resolved tt,
     (with_this (loaded W P row (this h)) h,
      tr ++ [CallSet (parse W row); CallReset] ++ pivot_calls P)).
Proof.
  unfold _handleResponse, loaded, pivot_calls, is_joined. chain.
  destruct (relatedData P) as [rd|]; [destruct (rel_isJoined rd)|];
    simpl; rewrite <- ?app_assoc; simpl; try reflexivity.
  all: by rewrite app_nil_r.
Qed.

(** The root query is rejected: the rejection reaches the final [catch]. *)
Lemma fetch_rejected_run (m : model) (opts : option object) (e : reason)
    (h1 : heap) :
  sync_first W (entry_heap m opts) = (Rejected e, h1) ->
  run (fetch W P opts) m = (settle_fetch (Rejected e), (h1, [CallFirst])).
Proof.
  intros Hfirst. unfold fetch, entry_heap in *. chain. rewrite Hfirst. simpl.
  destruct (reason_is_null e); reflexivity.
Qed.

(** The root query returns no row. *)
Lemma fetch_no_rows_run (m : model) (opts : option object)
    (response : option (list object)) (h1 : heap) :
  sync_first W (entry_heap m opts) = (Resolved response, h1) ->
  no_rows response = true ->
  run (fetch W P opts) m
  = (if truthy (prop (options h1) "require")
     then Rejected (Thrown NotFoundError "EmptyResponse")
     else Resolved (Plain VNull),
     (h1, [CallFirst])).
Proof.
  intros Hfirst Hnone. unfold fetch, entry_heap in *. chain.
  rewrite Hfirst. simpl. rewrite Hnone. simpl.
  destruct (truthy (prop (options h1) "require")); reflexivity.
Qed.

(** The root query returns rows. *)
Lemma fetch_rows_run (m : model) (opts : option object)
    (row : object) (rest : list object) (h1 : heap) :
  sync_first W (entry_heap m opts) = (Resolved (Some (row :: rest)), h1) ->
  let h2 := with_this (loaded W P row (this h1)) h1 in
  let tr2 := [CallFirst; CallSet (parse W row); CallReset] ++ pivot_calls P in
  let eager := CallEager (row :: rest) (delete "columns" (options h1)) in
  run (fetch W P opts) m
  = if truthy (prop (options h1) "withRelated") then
      match eager_fetch W (row :: rest) (delete "columns" (options h1))
              (this h2) with
      | (Resolved _, m3) =>
          fetched_step W (row :: rest) (with_this m3 h2, tr2 ++ [eager])
      | (Rejected e, m3) =>
          (settle_fetch (Rejected e), (with_this m3 h2, tr2 ++ [eager]))
      end
    else fetched_step W (row :: rest) (h2, tr2).
Proof.
  intros Hfirst h2 tr2 eager. subst h2 tr2 eager.
  unfold fetch, _handleEager, _handleResponse, fetched_step, entry_heap,
    loaded, pivot_calls, is_joined in *.
  chain. rewrite Hfirst. simpl.
  destruct (relatedData P) as [rd|]; [destruct (rel_isJoined rd)|]; simpl.
  all: destruct (truthy (prop (options h1) "withRelated")); simpl.
  all: try (destruct (eager_fetch W _ _ _) as [[[]|e] m3]; simpl).
  all: try (destruct (triggerThen W _ _ _) as [[[]|e'] h']; simpl).
  all: try reflexivity.
  all: match goal with |- context [reason_is_null ?x] =>
         destruct (reason_is_null x); reflexivity end.
Qed.

(** The one call [fetch] makes to the engine, and its arguments. *)
Lemma fetch_eager_call (m : model) (opts : option object)
    (r : list object) (o : object) :
  In (CallEager r o) (trace_of (run (fetch W P opts) m)) ->
  exists (row : object) (rest : list object) (h1 : heap),
    sync_first W (entry_heap m opts) = (Resolved (Some (row :: rest)), h1)
    /\ truthy (prop (options h1) "withRelated") = true
    /\ r = row :: rest
    /\ o = delete "columns" (options h1).
Proof.
  intros Hin.
  destruct (sync_first W (entry_heap m opts)) as [[response|e] h1] eqn:Hfirst.
  2:{ rewrite (fetch_rejected_run _ _ _ _ Hfirst) in Hin.
      simpl in Hin. intuition discriminate. }
  destruct response as [[|row rest]|].
  1,3: rewrite (fetch_no_rows_run _ _ _ _ Hfirst eq_refl) in Hin;
       simpl in Hin; intuition discriminate.
  exists row, rest, h1. split; [reflexivity|].
  rewrite (fetch_rows_run _ _ _ _ _ Hfirst) in *.
  unfold fetched_step, pivot_calls, trace_of in *.
  destruct (truthy (prop (options h1) "withRelated")).
  - split; [reflexivity|].
    destruct (eager_fetch W _ _ _) as [[[]|e] m3]; simpl in *.
    1: destruct (triggerThen W _ _ _) as [r' h']; simpl in *.
    all: destruct (is_joined P); simpl in *.
    all: repeat (destruct Hin as [Hin|Hin]; try discriminate Hin);
      try contradiction.
    all: by inversion Hin.
  - destruct (triggerThen W _ _ _) as [r' h']. simpl in *.
    destruct (is_joined P); simpl in *.
    all: repeat (destruct Hin as [Hin|Hin]; try discriminate Hin);
      contradiction.
Qed.

(** C1 (what the code does): when the root query of [fetch] returns no
    row, the promise is rejected with [NotFoundError] if [options.require] is
    truthy, and otherwise it is resolved, with [null] and not with
    [undefined]; in both cases the chain stops there: the model and the
    options are as [sync.first()] left them and [set] is never called. *)
Theorem fetch_no_rows (m : model) (opts : option object)
    (response : option (list object)) (h1 : heap) :
  sync_first W (entry_heap m opts) = (Resolved response, h1) ->
  no_rows response = true ->
  let r := run (fetch W P opts) m in
  (truthy (prop (options h1) "require") = true ->
   result_of r = Rejected (Thrown NotFoundError "EmptyResponse"))
  /\ (truthy (prop (options h1) "require") = false ->
      result_of r = Resolved (Plain VNull)
      /\ result_of r <> Resolved (Plain VUndefined))
  /\ heap_of r = h1
  /\ trace_of r = [CallFirst].
Proof.
  intros Hfirst Hnone r. subst r.
  rewrite (fetch_no_rows_run _ _ _ _ Hfirst Hnone).
  unfold result_of, heap_of, trace_of. simpl.
  split; [by intros ->|]. split; [|done].
  intros ->. split; [reflexivity|discriminate].
Qed.

(** C8: in every [fetch], a call to the eager-load engine comes only after
    the root query has returned at least one row and that response has been
    loaded into the model: [set] with the parsed first row, [_reset], and the
    pivot parsing when the model came through a joined relation, in this
    order, all precede it, and the engine works on the model so loaded.  The
    engine is called at most once. *)
Theorem fetch_loads_root_before_eager (m : model) (opts : option object)
    (r : list object) (o : object) :
  In (CallEager r o) (trace_of (run (fetch W P opts) m)) ->
  exists (row : object) (rest : list object) (h1 : heap) (post : list event),
    sync_first W (entry_heap m opts) = (Resolved (Some (row :: rest)), h1)
    /\ r = row :: rest
    /\ trace_of (run (fetch W P opts) m)
       = [CallFirst; CallSet (parse W row); CallReset] ++ pivot_calls P
         ++ CallEager r o :: post
    /\ Forall (fun ev => is_eager ev = false) post
    /\ this (heap_of (run (fetch W P opts) m))
       = (let m3 := snd (eager_fetch W r o (loaded W P row (this h1))) in
          match eager_fetch W r o (loaded W P row (this h1)) with
          | (Resolved _, _) =>
              this (snd (triggerThen W "fetched" (VArr (VObj <$> r))
                           (with_this m3
                              (with_this (loaded W P row (this h1)) h1))))
          | (Rejected _, _) => m3
          end).
Proof.
  intros Hin.
  destruct (fetch_eager_call m opts r o Hin)
    as (row & rest & h1 & Hfirst & Hwith & -> & ->).
  exists row, rest, h1.
  rewrite (fetch_rows_run _ _ _ _ _ Hfirst). cbv zeta. rewrite Hwith.
  unfold fetched_step, trace_of, heap_of.
  destruct (eager_fetch W _ _ _) as [[[]|e] m3]; cbn [fst snd].
  - destruct (triggerThen W _ _ _) as [r' h']. cbn [fst snd].
    exists [CallTrigger "fetched" (VArr (VObj <$> row :: rest))].
    split; [exact Hfirst|]. split; [reflexivity|].
    split; [|split; [|reflexivity]].
    + rewrite <- !app_assoc. reflexivity.
    + repeat constructor.
  - exists []. split; [exact Hfirst|]. split; [reflexivity|].
    split; [|split; [constructor|reflexivity]].
    rewrite <- !app_assoc. reflexivity.
Qed.

(** C10: the options [fetch] hands to the eager-load engine are its working
    options with [columns] deleted: they have no [columns], and every other
    field is passed as it stands in the working options (the clone of the
    caller's options, as [sync.first()] left it). *)
Theorem fetch_omits_columns_for_eager (m : model) (opts : option object)
    (r : list object) (o : object) :
  In (CallEager r o) (trace_of (run (fetch W P opts) m)) ->
  exists (h1 : heap),
    snd (sync_first W (entry_heap m opts)) = h1
    /\ o = delete "columns" (options h1)
    /\ o !! "columns" = None
    /\ (forall k : string, k <> "columns" -> o !! k = options h1 !! k)
    /\ (options h1 = default ∅ opts ->
        forall k : string, k <> "columns" -> o !! k = default ∅ opts !! k).
Proof.
  intros Hin.
  destruct (fetch_eager_call m opts r o Hin)
    as (row & rest & h1 & Hfirst & _ & _ & Ho).
  exists h1. rewrite Hfirst. split; [reflexivity|]. subst o.
  split; [reflexivity|]. split; [apply lookup_delete_eq|].
  split.
  - intros k Hk. by apply lookup_delete_ne.
  - intros <- k Hk. by apply lookup_delete_ne.
Qed.

End Fetch.

Lemma fetch_no_rows_witness :
  let W0 := Sample.world "id" Sample.empty_db in
  let r := run (fetch W0 Sample.plain None) Sample.book in
  (truthy (prop (options (entry_heap Sample.book None)) "require") = true ->
   result_of r = Rejected (Thrown NotFoundError "EmptyResponse"))
  /\ (truthy (prop (options (entry_heap Sample.book None)) "require") = false ->
      result_of r = Resolved (Plain VNull)
      /\ result_of r <> Resolved (Plain VUndefined))
  /\ heap_of r = entry_heap Sample.book None
  /\ trace_of r = [CallFirst].
Proof.
  intros W0.
  apply (fetch_no_rows W0 Sample.plain Sample.book None (Some [])
           (entry_heap Sample.book None)); reflexivity.
Defined.


Lemma fetch_loads_root_before_eager_witness :
  let W0 := Sample.world "id" Sample.library_db in
  let opts := Some Sample.related_options in
  let o := delete "columns" Sample.related_options in
  let t := trace_of (run (fetch W0 Sample.plain opts) Sample.blank) in
  In (CallEager [Sample.book_row] o) t
  /\ exists (row : object) (rest : list object) (h1 : heap)
           (post : list event),
       sync_first W0 (entry_heap Sample.blank opts)
       = (Resolved (Some (row :: rest)), h1)
       /\ [Sample.book_row] = row :: rest
       /\ t = [CallFirst; CallSet (parse W0 row); CallReset]
              ++ pivot_calls Sample.plain
              ++ CallEager [Sample.book_row] o :: post
       /\ Forall (fun ev => is_eager ev = false) post
       /\ this (heap_of (run (fetch W0 Sample.plain opts) Sample.blank))
          = (let loaded0 := loaded W0 Sample.plain row (this h1) in
             let m3 := snd (eager_fetch W0 [Sample.book_row] o loaded0) in
             match eager_fetch W0 [Sample.book_row] o loaded0 with
             | (Resolved _, _) =>
                 this (snd (triggerThen W0 "fetched"
                              (VArr (VObj <$> [Sample.book_row]))
                              (with_this m3 (with_this loaded0 h1))))
             | (Rejected _, _) => m3
             end).
Proof.
  intros W0 opts o t.
  assert (In (CallEager [Sample.book_row] o) t) as Hin.
  { vm_compute. repeat (first [left; reflexivity | right]). }
  split; [exact Hin|].
  exact (fetch_loads_root_before_eager W0 Sample.plain Sample.blank opts
           [Sample.book_row] o Hin).
Defined.

Lemma fetch_omits_columns_for_eager_witness :
  let W0 := Sample.world "id" Sample.library_db in
  let opts := Some Sample.related_options in
  let o := delete "columns" Sample.related_options in
  In (CallEager [Sample.book_row] o)
     (trace_of (run (fetch W0 Sample.plain opts) Sample.blank))
  /\ exists (h1 : heap),
       snd (sync_first W0 (entry_heap Sample.blank opts)) = h1
       /\ o = delete "columns" (options h1)
       /\ o !! "columns" = None
       /\ (forall k : string, k <> "columns" -> o !! k = options h1 !! k)
       /\ (options h1 = default ∅ opts ->
           forall k : string,
             k <> "columns" -> o !! k = default ∅ opts !! k).
Proof.
  intros W0 opts o.
  assert (In (CallEager [Sample.book_row] o)
             (trace_of (run (fetch W0 Sample.plain opts) Sample.blank)))
    as Hin.
  { vm_compute. repeat (first [left; reflexivity | right]). }
  split; [exact Hin|].
  exact (fetch_omits_columns_for_eager W0 Sample.plain Sample.blank opts
           [Sample.book_row] o Hin).
Defined.

Section Destroy.

Variable W : collaborators.

(** [destroy], step by step. *)
Lemma destroy_run (m : model) (opts : option object) :
  let h0 := destroy_heap W m opts in
  let t1 := [CallTrigger "destroying" VUndefined] in
  run (destroy W opts) m
  = match triggerThen W "destroying" VUndefined h0 with
    | (Rejected e, h1) => (Rejected e, (h1, t1))
    | (Resolved _, h1) =>
        match sync_del W h1 with
        | Rejected e => (Rejected e, (h1, t1 ++ [CallDel]))
        | Resolved resp =>
            if truthy (prop (options h1) "require") && is_zero resp
            then (Rejected (Thrown NoRowsDeletedError "No Rows Deleted"),
                  (h1, t1 ++ [CallDel]))
            else
              let h2 := with_this (clear W (this h1)) h1 in
              let t2 := t1 ++ [CallDel; CallClear; CallTrigger "destroyed" resp] in
              match triggerThen W "destroyed" resp h2 with
              | (Rejected e, h3) => (Rejected e, (h3, t2))
              | (Resolved _, h3) =>
                  (Resolved This,
                   (with_this (_reset W (this h3)) h3, t2 ++ [CallReset]))
              end
        end
    end.
Proof.
  unfold destroy, destroy_heap, entry_heap. chain.
  destruct (triggerThen W _ _ _) as [[[]|e] h1]; simpl; [|reflexivity].
  destruct (sync_del W h1) as [resp|e]; simpl; [|reflexivity].
  destruct (truthy (prop (options h1) "require") && is_zero resp); simpl;
    [reflexivity|].
  destruct (triggerThen W _ _ _) as [[[]|e] h3]; reflexivity.
Qed.

(** C3: when the [destroying] handlers pass, the delete affects zero rows
    and [options.require] is truthy, [destroy] is rejected with
    [NoRowsDeletedError]; [clear] is never called, so the instance is left as
    the handlers left it, and its attributes are those it had before the call
    whenever the handlers did not change them. *)
Theorem destroy_require_zero_rows (m : model) (opts : option object)
    (h1 : heap) :
  triggerThen W "destroying" VUndefined (destroy_heap W m opts)
  = (Resolved tt, h1) ->
  sync_del W h1 = Resolved (VNum 0) ->
  truthy (prop (options h1) "require") = true ->
  let r := run (destroy W opts) m in
  result_of r = Rejected (Thrown NoRowsDeletedError "No Rows Deleted")
  /\ trace_of r = [CallTrigger "destroying" VUndefined; CallDel]
  /\ ~ In CallClear (trace_of r)
  /\ this (heap_of r) = this h1
  /\ (attributes (this h1) = attributes m ->
      attributes (this (heap_of r)) = attributes m).
Proof.
  intros Hhook Hdel Hreq r. subst r.
  rewrite destroy_run. cbv zeta. rewrite Hhook, Hdel, Hreq. simpl.
  unfold result_of, trace_of, heap_of. simpl.
  repeat split; try done.
  intros Hin. simpl in Hin. intuition discriminate.
Qed.

End Destroy.

Lemma destroy_require_zero_rows_witness :
  let W0 := Sample.world "id" Sample.empty_db in
  let opts := Some ({[ "require" := VBool true ]} : object) in
  let h1 := destroy_heap W0 Sample.book opts in
  let r := run (destroy W0 opts) Sample.book in
  result_of r = Rejected (Thrown NoRowsDeletedError "No Rows Deleted")
  /\ trace_of r = [CallTrigger "destroying" VUndefined; CallDel]
  /\ ~ In CallClear (trace_of r)
  /\ this (heap_of r) = this h1
  /\ (attributes (this h1) = attributes Sample.book ->
      attributes (this (heap_of r)) = attributes Sample.book).
Proof.
  intros W0 opts h1.
  apply (destroy_require_zero_rows W0 Sample.book opts h1); reflexivity.
Defined.

Section Save.

Variable W : collaborators.
Variable P : prototype.

Lemma save_prepare_run (m : model) (args : save_args) :
  save_prepare W P args (start m)
  = (Resolved (save_method W m args),
     (prepared W P m args, prepare_trace W P m args)).
Proof.
  unfold save_prepare, prepared, prepare_trace, prepared_model, stamped_model,
    stamped_attrs, merged_attrs, constraint_of, save_method.
  chain.
  set (method := saveMethod W m (save_options args)).
  destruct ((method =? "insert") || truthy (prop (save_options args) "defaults"));
    [destruct (defaults P) as [d|]|]; simpl.
  all: destruct (truthy (hasTimestamps P)); simpl.
  all: try (destruct (timestamp W method _) as [vals m'] eqn:Hts; simpl).
  all: destruct (relatedData P) as [rd|];
    [destruct (negb (rel_type rd =? "morphTo"))|]; simpl.
  all: reflexivity.
Qed.

(** [save], step by step, up to the response of the write. *)
Lemma save_run (m : model) (args : save_args) :
  let h0 := prepared W P m args in
  let method := save_method W m args in
  let ev := CallTrigger (pre_events W m args) (VObj (attrs h0)) in
  let t1 := prepare_trace W P m args ++ [ev] in
  run (save W P args) m
  = match triggerThen W (pre_events W m args) (VObj (attrs h0)) h0 with
    | (Rejected e, h1) => (Rejected e, (h1, t1))
    | (Resolved _, h1) =>
        match prop (options h1) "method" with
        | VStr dispatched =>
            let data := write_data method h1 in
            match sync_write W dispatched data h1 with
            | Rejected e => (Rejected e, (h1, t1 ++ [CallSync dispatched data]))
            | Resolved resp =>
                after_write W P method resp
                  (h1, t1 ++ [CallSync dispatched data])
            end
        | _ => (Rejected (Thrown TypeError "undefined is not a function"),
                (h1, t1))
        end
    end.
Proof.
  intros h0 method ev t1. subst h0 method ev t1.
  unfold run, save. unfold bind at 1. rewrite save_prepare_run.
  unfold after_write, pre_events, write_data, call_sync.
  set (h0 := prepared W P m args). set (method := save_method W m args).
  chain.
  destruct (triggerThen W _ _ h0) as [[[]|e] h1]; simpl; [|reflexivity].
  destruct (prop (options h1) "method"); reflexivity.
Qed.

(** The calls before the pre-save events are no writes. *)
Lemma prepare_trace_no_write (m : model) (args : save_args) :
  Forall (fun ev => is_write ev = false) (prepare_trace W P m args).
Proof.
  unfold prepare_trace.
  destruct (truthy (hasTimestamps P)); destruct (constraint_of P);
    simpl; repeat constructor.
Qed.

(** The response of an update. *)
Lemma after_update (resp : value) (h1 : heap) (tr : list event) :
  after_write W P "update" resp (h1, tr)
  = if is_zero resp && is_not_false (prop (options h1) "require")
    then (Rejected (Thrown NoRowsUpdatedError "No Rows Updated"), (h1, tr))
    else saved_step W "updated saved" resp (h1, tr).
Proof.
  unfold after_write, save_response, saved_step. chain.
  destruct (is_zero resp); simpl;
    [destruct (is_not_false (prop (options h1) "require")); simpl|];
    try reflexivity.
  all: destruct (triggerThen W _ _ _) as [[[]|e] h3]; simpl;
    rewrite <- ?app_assoc; reflexivity.
Qed.


(** The response of an insert, when the model has an id by then. *)
Lemma after_insert_known (resp : value) (h1 : heap) (tr : list event) :
  is_nullish (id (this h1)) = false ->
  after_write W P "insert" resp (h1, tr)
  = saved_step W "created saved" resp (h1, tr).
Proof.
  intros Hknown.
  unfold after_write, save_response, saved_step. chain.
  rewrite Hknown. simpl.
  destruct (triggerThen W _ _ _) as [[[]|e] h3]; simpl;
    rewrite <- ?app_assoc; reflexivity.
Qed.

(** A rejection of the tail of [save] comes from the post-save handlers. *)
Lemma saved_step_rejects (k : error_kind) (names : string) (resp : value)
    (s : state) :
  rejects_with k (fst (saved_step W names resp s)) ->
  exists h : heap, rejects_with k (fst (triggerThen W names resp h)).
Proof.
  unfold saved_step. intros Hrej. eexists.
  destruct (triggerThen W names resp _) as [[[]|e] h3] eqn:Hpost;
    simpl in Hrej; destruct Hrej as [msg Hrej].
  - discriminate Hrej.
  - rewrite Hpost. exists msg. simpl. congruence.
Qed.

(** C2 (amended): for a [save] that performs an update whose pre-save
    handlers pass and whose write is answered with [resp], the promise is
    rejected with [NoRowsUpdatedError] exactly when [resp === 0] and
    [options.require !== false], so also when [require] was not given; only
    [require: false] lets an update of zero rows resolve.  (The post-save
    handlers are taken not to raise that error themselves.) *)
Theorem save_update_rejects_unless_require_false
    (m : model) (args : save_args) (h1 : heap) (resp : value) :
  save_method W m args = "update" ->
  triggerThen W "updating saving" (VObj (attrs (prepared W P m args)))
    (prepared W P m args) = (Resolved tt, h1) ->
  prop (options h1) "method" = VStr "update" ->
  sync_write W "update" (write_data "update" h1) h1 = Resolved resp ->
  (forall h : heap,
     ~ rejects_with NoRowsUpdatedError
         (fst (triggerThen W "updated saved" resp h))) ->
  rejects_with NoRowsUpdatedError (result_of (run (save W P args) m))
  <-> is_zero resp = true
      /\ is_not_false (prop (options h1) "require") = true.
Proof.
  intros Hmethod Hpre Hdispatch Hwrite Hpost.
  rewrite save_run. cbv zeta. unfold pre_events, result_of.
  rewrite Hmethod. simpl String.eqb. cbv iota.
  rewrite Hpre, Hdispatch, Hwrite, after_update.
  destruct (is_zero resp); simpl;
    [destruct (is_not_false (prop (options h1) "require")); simpl|].
  - split; [done|]. intros _. by eexists.
  - split; [|intros [_ ?]; done].
    intros Hrej. destruct (saved_step_rejects _ _ _ _ Hrej) as [h Hh].
    by destruct (Hpost h).
  - split; [|intros [? _]; done].
    intros Hrej. destruct (saved_step_rejects _ _ _ _ Hrej) as [h Hh].
    by destruct (Hpost h).
Qed.


End Save.

Lemma save_update_rejects_unless_require_false_witness :
  let W0 := Sample.world "id" Sample.empty_db in
  let args := SaveAttrs None None in
  let h1 := prepared W0 Sample.plain Sample.book args in
  save_method W0 Sample.book args = "update"
  /\ (rejects_with NoRowsUpdatedError
        (result_of (run (save W0 Sample.plain args) Sample.book))
      <-> is_zero (VNum 0) = true
          /\ is_not_false (prop (options h1) "require") = true).
Proof.
  intros W0 args h1. split; [reflexivity|].
  apply (save_update_rejects_unless_require_false W0 Sample.plain
           Sample.book args h1 (VNum 0)); try reflexivity.
  intros h [msg Hmsg]. discriminate Hmsg.
Defined.

(** C2 (counterexample): an update of a saved row that matches nothing,
    saved without any [require] option, is rejected with
    [NoRowsUpdatedError]; it does not resolve. *)
Lemma save_update_without_require_rejects :
  let W0 := Sample.world "id" Sample.empty_db in
  let args := SaveAttrs None None in
  save_method W0 Sample.book args = "update"
  /\ save_options args !! "require" = None
  /\ Sample.write Sample.empty_db "update" (attributes Sample.book)
     = Resolved (VNum 0)
  /\ result_of (run (save W0 Sample.plain args) Sample.book)
     = Rejected (Thrown NoRowsUpdatedError "No Rows Updated").
Proof.
  repeat split.
Qed.



Lemma morph_relations_require_name_and_target_witness :
  let W0 := Sample.world "id" Sample.library_db in
  morphTo W0 Sample.blank []
  = (Throws (Thrown PlainError "The `morphTo` name must be specified."), [])
  /\ morphOne W0 Sample.blank (VRef 5) VUndefined VUndefined VUndefined
     = (Throws (Thrown PlainError
                  "The polymorphic `name` and `Target` are required."), [])
  /\ morphMany W0 Sample.blank VUndefined (VStr "imageable") VUndefined
       VUndefined
     = (Throws (Thrown PlainError
                  "The polymorphic `name` and `Target` are required."), []).
Proof.
  intros W0.
  split; [|split].
  - apply (morph_relations_require_name_and_target W0 Sample.blank []
             VUndefined VUndefined VUndefined VUndefined). reflexivity.
  - apply (morph_relations_require_name_and_target W0 Sample.blank []
             (VRef 5) VUndefined VUndefined VUndefined). left. reflexivity.
  - apply (morph_relations_require_name_and_target W0 Sample.blank []
             VUndefined (VStr "imageable") VUndefined VUndefined).
    right. reflexivity.
Defined.

Section Hooks.

Variable W : collaborators.
Variable P : prototype.

(** C5: when the handlers of the pre-save events ([creating saving] or
    [updating saving]) of a [save], or of the [destroying] event of a
    [destroy], fail with an error, the promise of the operation is rejected
    with that error and the trace of the operation holds no insert, update or
    delete call. *)
Theorem failing_hook_aborts_before_write
    (m : model) (op : operation) (e : reason) (h1 : heap) :
  triggerThen W (pre_names W m op) (pre_arg W P m op) (pre_heap W P m op)
  = (Rejected e, h1) ->
  let r := run (perform W P op) m in
  result_of r = Rejected e
  /\ Forall (fun ev => is_write ev = false) (trace_of r)
  /\ heap_of r = h1.
Proof.
  intros Hhook r. subst r.
  destruct op as [args|opts]; cbn [pre_names pre_arg pre_heap perform] in *.
  - rewrite save_run. cbv zeta. rewrite Hhook.
    unfold result_of, trace_of, heap_of. cbn [fst snd].
    repeat split. apply Forall_app_2.
    + apply prepare_trace_no_write.
    + repeat constructor.
  - rewrite destroy_run. cbv zeta. rewrite Hhook.
    unfold result_of, trace_of, heap_of. simpl.
    repeat split. repeat constructor.
Qed.

End Hooks.

Lemma failing_hook_aborts_before_write_witness :
  let W0 := Sample.world "id" Sample.strict_db in
  let refused := Rejected (Thrown PlainError "validation failed") in
  let saving := run (save W0 Sample.plain (SaveKeyVal "title" (VStr "Y") None))
                    Sample.book in
  let destroying := run (destroy W0 None) Sample.book in
  (result_of saving = refused
   /\ Forall (fun ev => is_write ev = false) (trace_of saving)
   /\ heap_of saving
      = prepared W0 Sample.plain Sample.book
          (SaveKeyVal "title" (VStr "Y") None))
  /\ (result_of destroying = refused
      /\ Forall (fun ev => is_write ev = false) (trace_of destroying)
      /\ heap_of destroying = destroy_heap W0 Sample.book None).
Proof.
  intros W0 refused saving destroying. split.
  - apply (failing_hook_aborts_before_write W0 Sample.plain Sample.book
             (Save (SaveKeyVal "title" (VStr "Y") None))).
    reflexivity.
  - apply (failing_hook_aborts_before_write W0 Sample.plain Sample.book
             (Destroy None)).
    reflexivity.
Defined.

Section Engine.

Variable W : collaborators.
Variable resolve : string -> value -> list object -> object -> outcome value.

Lemma relations_attach_all (nvs : list (string * value)) (m : model) :
  relations (foldl Eager.attach m nvs)
  = list_to_map (reverse nvs) ∪ relations m.
Proof.
  revert m. induction nvs as [|[n v] nvs IH]; intros m; simpl.
  - by rewrite (left_id_L ∅ (∪)).
  - rewrite IH. simpl. rewrite reverse_cons, list_to_map_app. simpl.
    rewrite insert_empty, <- (assoc_L (∪)).
    by rewrite <- insert_union_singleton_l.
Qed.

Lemma attributes_attach_all (nvs : list (string * value)) (m : model) :
  attributes (foldl Eager.attach m nvs) = attributes m.
Proof.
  revert m. induction nvs as [|nv nvs IH]; intros m; simpl; [done|].
  by rewrite IH.
Qed.

Lemma resolve_all_names (f : string -> outcome value) (ns : list string)
    (nvs : list (string * value)) :
  Eager.resolve_all f ns = Resolved nvs ->
  nvs.*1 = ns /\ Forall (fun nv => f (fst nv) = Resolved (snd nv)) nvs.
Proof.
  revert nvs. induction ns as [|n ns IH]; intros nvs; simpl.
  - intros [= <-]. split; [done|constructor].
  - destruct (f n) as [v|e] eqn:Hn; [|done].
    destruct (Eager.resolve_all f ns) as [vs|e]; [|done].
    intros [= <-]. destruct (IH vs eq_refl) as [Hns Hvs].
    split; [by rewrite fmap_cons, Hns|]. by constructor.
Qed.

(** [load] over the engine of the specification. *)
Lemma load_engine_run (m : model) (rels : value) (opts : option object) :
  let o := load_options rels opts in
  let wr := prop o "withRelated" in
  let response := [format W (attributes m)] in
  run (load (with_engine resolve W) rels opts) m
  = match Eager.resolve_all (fun n => resolve n wr response o)
            (Eager.names wr) with
    | Rejected e =>
        (Rejected e, (entry_heap m None, [CallEager response o]))
    | Resolved nvs =>
        (Resolved This,
         (entry_heap (foldl Eager.attach m nvs) None,
          [CallEager response o]))
    end.
Proof.
  unfold load, _handleEager, load_options, entry_heap. chain.
  unfold Eager.fetchEager.
  destruct (Eager.resolve_all _ _) as [nvs|e]; reflexivity.
Qed.

(** C6: with the eager-load engine of the specification, calling [load]
    twice with the same relations leaves the [relations] map as one call
    leaves it: the second call settles as the first does, the map is equal
    (so no entry is added, appended to or merged), and after successful
    loads every requested relation name holds the value resolved for it. *)
Theorem load_twice_replaces_relation
    (m : model) (rels : value) (opts : option object) :
  let E := with_engine resolve W in
  let once := run (load E rels opts) m in
  let twice := run (load E rels opts) (this (heap_of once)) in
  result_of twice = result_of once
  /\ relations (this (heap_of twice)) = relations (this (heap_of once))
  /\ size (relations (this (heap_of twice)))
     = size (relations (this (heap_of once)))
  /\ (result_of once = Resolved This ->
      forall n : string,
        n ∈ Eager.names (prop (load_options rels opts) "withRelated") ->
        exists v : value,
          resolve n (prop (load_options rels opts) "withRelated")
            [format W (attributes m)] (load_options rels opts)
          = Resolved v
          /\ relations (this (heap_of once)) !! n = Some v
          /\ relations (this (heap_of twice)) !! n = Some v).
Proof.
  intros E once twice.
  assert (result_of twice = result_of once
          /\ relations (this (heap_of twice))
             = relations (this (heap_of once))) as [Hres Hrel].
  { subst twice once E. rewrite (load_engine_run m).
    cbv zeta.
    destruct (Eager.resolve_all _ _) as [nvs|e] eqn:Hall;
      unfold heap_of; cbn [fst snd this entry_heap];
      rewrite load_engine_run; cbv zeta.
    - rewrite attributes_attach_all, Hall.
      unfold result_of, heap_of. cbn [fst snd this entry_heap].
      split; [done|].
      rewrite !relations_attach_all, (assoc_L (∪)).
      by rewrite (idemp_L (∪)).
    - rewrite Hall. done. }
  split; [done|]. split; [done|]. split; [by rewrite Hrel|].
  rewrite Hrel. subst once E. rewrite (load_engine_run m). cbv zeta.
  destruct (Eager.resolve_all _ _) as [nvs|e] eqn:Hall;
    unfold result_of, heap_of; cbn [fst snd this entry_heap]; [|done].
  intros _ n Hn.
  destruct (resolve_all_names _ _ _ Hall) as [Hnames Hvals].
  assert (NoDup nvs.*1) as Hnodup.
  { rewrite Hnames. apply NoDup_remove_dups. }
  rewrite <- Hnames in Hn.
  apply list_elem_of_fmap in Hn as [[n' v] [-> Hnv]].
  exists v. simpl.
  assert (relations (foldl Eager.attach m nvs) !! n' = Some v) as Hlook.
  { rewrite relations_attach_all. apply lookup_union_Some_l.
    apply elem_of_list_to_map_1.
    - by rewrite fmap_reverse, reverse_Permutation.
    - by apply elem_of_reverse. }
  rewrite Forall_forall in Hvals.
  split; [exact (Hvals _ Hnv)|]. by split.
Qed.

End Engine.

Lemma load_twice_replaces_relation_witness :
  let W0 := Sample.world "id" Sample.library_db in
  let resolve0 :=
    fun (name : string) (_ : value) (_ : list object) (_ : object) =>
      Sample.related_rows Sample.library_db name in
  let E := with_engine resolve0 W0 in
  let once := run (load E (VStr "editions") None) Sample.book in
  let twice := run (load E (VStr "editions") None) (this (heap_of once)) in
  result_of once = Resolved This
  /\ relations (this (heap_of twice)) = relations (this (heap_of once))
  /\ size (relations (this (heap_of twice))) = 1
  /\ exists v : value,
       Sample.related_rows Sample.library_db "editions" = Resolved v
       /\ relations (this (heap_of twice)) !! "editions" = Some v.
Proof.
  intros W0 resolve0 E once twice.
  destruct (load_twice_replaces_relation W0 resolve0 Sample.book
              (VStr "editions") None) as (_ & Hrel & Hsize & Hval).
  split; [reflexivity|]. split; [exact Hrel|].
  split; [etrans; [exact Hsize|reflexivity]|].
  destruct (Hval eq_refl "editions") as (v & Hv & _ & Hlook).
  { vm_compute. left. }
  exists v. split; [exact Hv|exact Hlook].
Defined.

(** * Further properties of [fetch] and [load] *)

Section FetchMore.

Variable W : collaborators.
Variable P : prototype.

Lemma settle_fetch_not_null (r : outcome unit) (e : reason) :
  settle_fetch r = Rejected e -> reason_is_null e = false.
Proof.
  destruct r as [[]|e']; simpl; [done|].
  destruct (reason_is_null e') eqn:Hnull; [done|]. by intros [= <-].
Qed.

(** X1: [fetch] is never rejected with [null]: whichever step of the chain
    is rejected with [null] (the root query, the eager load or a handler),
    the final [catch] turns it into a resolution; any rejection that comes
    out carries a reason other than [null]. *)
Theorem fetch_never_rejects_with_null (m : model) (opts : option object)
    (e : reason) :
  result_of (run (fetch W P opts) m) = Rejected e ->
  reason_is_null e = false.
Proof.
  destruct (sync_first W (entry_heap m opts)) as [[response|e'] h1] eqn:Hfirst.
  2:{ rewrite (fetch_rejected_run _ _ _ _ _ _ Hfirst). unfold result_of.
      cbn [fst]. apply settle_fetch_not_null. }
  destruct response as [[|row rest]|].
  1,3: rewrite (fetch_no_rows_run _ _ _ _ _ _ Hfirst eq_refl);
       unfold result_of; cbn [fst];
       destruct (truthy (prop (options h1) "require")); [|done];
       by intros [= <-].
  rewrite (fetch_rows_run _ _ _ _ _ _ _ Hfirst). cbv zeta.
  unfold fetched_step, result_of.
  destruct (truthy (prop (options h1) "withRelated")).
  - destruct (eager_fetch W _ _ _) as [[[]|e'] m3]; cbn [fst snd].
    + destruct (triggerThen W _ _ _) as [r' h']. cbn [fst].
      apply settle_fetch_not_null.
    + apply (settle_fetch_not_null (Rejected e')).
  - cbn [fst snd]. destruct (triggerThen W _ _ _) as [r' h']. cbn [fst].
    apply settle_fetch_not_null.
Qed.

(** X2: when the root query of [fetch] is rejected, nothing else happens:
    [set], the engine and the [fetched] handlers are not called and the heap
    is as [sync.first()] left it; the promise is rejected with the same
    reason, unless the reason is [null], in which case it resolves to
    [null]. *)
Theorem fetch_root_rejection (m : model) (opts : option object)
    (e : reason) (h1 : heap) :
  sync_first W (entry_heap m opts) = (Rejected e, h1) ->
  let r := run (fetch W P opts) m in
  (reason_is_null e = true -> result_of r = Resolved (Plain VNull))
  /\ (reason_is_null e = false -> result_of r = Rejected e)
  /\ heap_of r = h1
  /\ trace_of r = [CallFirst].
Proof.
  intros Hfirst r. subst r. rewrite (fetch_rejected_run _ _ _ _ _ _ Hfirst).
  unfold result_of, heap_of, trace_of. simpl.
  repeat split; by intros ->.
Qed.

(** X3: [fetch] resolves to the model only when the root query returned at
    least one row; the first row has then been set on the model and the
    [fetched] handlers, called last with the whole response, have passed. *)
Theorem fetch_resolves_model_only_with_rows (m : model)
    (opts : option object) :
  result_of (run (fetch W P opts) m) = Resolved This ->
  exists (row : object) (rest : list object) (h1 : heap) (pre : list event),
    sync_first W (entry_heap m opts) = (Resolved (Some (row :: rest)), h1)
    /\ trace_of (run (fetch W P opts) m)
       = pre ++ [CallTrigger "fetched" (VArr (VObj <$> row :: rest))]
    /\ In (CallSet (parse W row)) pre.
Proof.
  destruct (sync_first W (entry_heap m opts)) as [[response|e'] h1] eqn:Hfirst.
  2:{ rewrite (fetch_rejected_run _ _ _ _ _ _ Hfirst). unfold result_of.
      simpl. by destruct (reason_is_null e'). }
  destruct response as [[|row rest]|].
  1,3: rewrite (fetch_no_rows_run _ _ _ _ _ _ Hfirst eq_refl);
       unfold result_of; cbn [fst];
       by destruct (truthy (prop (options h1) "require")).
  rewrite (fetch_rows_run _ _ _ _ _ _ _ Hfirst). cbv zeta.
  unfold fetched_step, result_of, trace_of.
  intros Hres. exists row, rest, h1.
  destruct (truthy (prop (options h1) "withRelated")).
  - destruct (eager_fetch W _ _ _) as [[[]|e'] m3]; cbn [fst snd] in *.
    + destruct (triggerThen W _ _ _) as [r' h']. cbn [fst snd].
      eexists. split; [reflexivity|]. split; [reflexivity|].
      simpl. auto.
    + simpl in Hres. by destruct (reason_is_null e').
  - cbn [fst snd] in *. destruct (triggerThen W _ _ _) as [r' h'].
    cbn [fst snd]. eexists. split; [reflexivity|]. split; [reflexivity|].
    simpl. auto.
Qed.

(** X4: [fetch] calls the eager-load engine exactly when the root query
    returned at least one row and [options.withRelated] is truthy at that
    point; an empty result or a missing [withRelated] never reaches it. *)
Theorem fetch_engine_called_iff (m : model) (opts : option object) :
  (exists (r : list object) (o : object),
     In (CallEager r o) (trace_of (run (fetch W P opts) m)))
  <-> (exists (row : object) (rest : list object) (h1 : heap),
         sync_first W (entry_heap m opts)
         = (Resolved (Some (row :: rest)), h1)
         /\ truthy (prop (options h1) "withRelated") = true).
Proof.
  split.
  - intros (r & o & Hin).
    destruct (fetch_eager_call W P m opts r o Hin)
      as (row & rest & h1 & Hfirst & Hwith & _).
    by exists row, rest, h1.
  - intros (row & rest & h1 & Hfirst & Hwith).
    exists (row :: rest), (delete "columns" (options h1)).
    rewrite (fetch_rows_run _ _ _ _ _ _ _ Hfirst). cbv zeta. rewrite Hwith.
    unfold fetched_step, trace_of.
    destruct (eager_fetch W _ _ _) as [[[]|e'] m3]; cbn [fst snd].
    1: destruct (triggerThen W _ _ _) as [r' h']; cbn [fst snd].
    all: rewrite !in_app_iff; simpl; auto 10.
Qed.

(** X5: when the eager load of a [fetch] is rejected, the promise settles
    on that rejection and the [fetched] handlers are never called, although
    the root row is already loaded: the model is the one the engine left. *)
Theorem fetch_eager_failure_skips_fetched (m : model) (opts : option object)
    (row : object) (rest : list object) (h1 : heap) (e : reason)
    (m3 : model) :
  sync_first W (entry_heap m opts) = (Resolved (Some (row :: rest)), h1) ->
  truthy (prop (options h1) "withRelated") = true ->
  eager_fetch W (row :: rest) (delete "columns" (options h1))
    (loaded W P row (this h1)) = (Rejected e, m3) ->
  let r := run (fetch W P opts) m in
  result_of r = settle_fetch (Rejected e)
  /\ this (heap_of r) = m3
  /\ In (CallSet (parse W row)) (trace_of r)
  /\ forall (names : string) (arg : value),
       ~ In (CallTrigger names arg) (trace_of r).
Proof.
  intros Hfirst Hwith Heager r. subst r.
  rewrite (fetch_rows_run _ _ _ _ _ _ _ Hfirst). cbv zeta.
  rewrite Hwith. cbn [this with_this]. rewrite Heager.
  unfold result_of, heap_of, trace_of. cbn [fst snd this with_this].
  split; [reflexivity|]. split; [reflexivity|]. split; [simpl; auto|].
  intros names arg. rewrite !in_app_iff. unfold pivot_calls.
  destruct (is_joined P); simpl; intuition discriminate.
Qed.

(** X7: [fetch] parses the pivot of the model exactly when the model came
    through a joined relation and the root query returned at least one
    row. *)
Theorem fetch_parses_pivot_iff (m : model) (opts : option object) :
  In CallParsePivot (trace_of (run (fetch W P opts) m))
  <-> is_joined P = true
      /\ exists (row : object) (rest : list object) (h1 : heap),
           sync_first W (entry_heap m opts)
           = (Resolved (Some (row :: rest)), h1).
Proof.
  destruct (sync_first W (entry_heap m opts)) as [[response|e'] h1] eqn:Hfirst.
  2:{ rewrite (fetch_rejected_run _ _ _ _ _ _ Hfirst). unfold trace_of.
      simpl. split; [intuition discriminate|].
      intros [_ (row & rest & h & Hh)]. discriminate Hh. }
  destruct response as [[|row rest]|].
  1,3: rewrite (fetch_no_rows_run _ _ _ _ _ _ Hfirst eq_refl);
       unfold trace_of; simpl; (split; [intuition discriminate|]);
       intros [_ (row & rest & h & Hh)]; discriminate Hh.
  rewrite (fetch_rows_run _ _ _ _ _ _ _ Hfirst). cbv zeta.
  unfold fetched_step, trace_of, pivot_calls.
  destruct (truthy (prop (options h1) "withRelated")).
  1: destruct (eager_fetch W _ _ _) as [[[]|e'] m3]; cbn [fst snd].
  1,3: destruct (triggerThen W _ _ _) as [r' h']; cbn [fst snd].
  all: destruct (is_joined P); simpl.
  all: split; [intros Hin|intros [Hj _]; try discriminate Hj; auto 10].
  all: try (split; [reflexivity|]; by exists row, rest, h1).
  all: exfalso; intuition discriminate.
Qed.

(** X6: neither [fetch] nor [load] ever issues a write: whatever the
    collaborators answer, their traces hold no insert, update or delete
    call. *)
Theorem fetch_and_load_never_write (m : model) (opts : option object)
    (rels : value) (lopts : option object) :
  writes (trace_of (run (fetch W P opts) m)) = []
  /\ writes (trace_of (run (load W rels lopts) m)) = [].
Proof.
  split; [|by rewrite load_trace].
  destruct (sync_first W (entry_heap m opts)) as [[response|e'] h1] eqn:Hfirst.
  2:{ by rewrite (fetch_rejected_run _ _ _ _ _ _ Hfirst). }
  destruct response as [[|row rest]|].
  1,3: by rewrite (fetch_no_rows_run _ _ _ _ _ _ Hfirst eq_refl).
  rewrite (fetch_rows_run _ _ _ _ _ _ _ Hfirst). cbv zeta.
  unfold fetched_step, trace_of, pivot_calls, writes.
  destruct (truthy (prop (options h1) "withRelated")).
  1: destruct (eager_fetch W _ _ _) as [[[]|e'] m3]; cbn [fst snd].
  1,3: destruct (triggerThen W _ _ _) as [r' h']; cbn [fst snd].
  all: by destruct (is_joined P).
Qed.

(** X8: [load] settles as the engine does: it resolves to the model when
    the engine resolves and is rejected with the engine's reason otherwise,
    [null] included (it has no [catch] of its own, unlike [fetch]); the model
    is the one the engine left. *)
Theorem load_settles_as_engine (m : model) (rels : value)
    (opts : option object) :
  let answer :=
    eager_fetch W [format W (attributes m)] (load_options rels opts) m in
  result_of (run (load W rels opts) m)
  = match fst answer with
    | Resolved _ => Resolved This
    | Rejected e => Rejected e
    end
  /\ this (heap_of (run (load W rels opts) m)) = snd answer.
Proof.
  unfold load, _handleEager, load_options. chain.
  destruct (eager_fetch W _ _ m) as [[[]|e] m']; split; reflexivity.
Qed.

End FetchMore.

Lemma fetch_never_rejects_with_null_witness :
  let W0 := Sample.world "id" Cases.down_db in
  result_of (run (fetch W0 Sample.plain None) Sample.book)
  = Rejected Cases.lost
  /\ reason_is_null Cases.lost = false.
Proof.
  intros W0. split; [reflexivity|].
  apply (fetch_never_rejects_with_null W0 Sample.plain Sample.book None).
  reflexivity.
Defined.

Lemma fetch_root_rejection_witness :
  let W0 := Sample.world "id" Cases.down_db in
  let r := run (fetch W0 Sample.plain None) Sample.book in
  (reason_is_null Cases.lost = true -> result_of r = Resolved (Plain VNull))
  /\ (reason_is_null Cases.lost = false -> result_of r = Rejected Cases.lost)
  /\ heap_of r = entry_heap Sample.book None
  /\ trace_of r = [CallFirst].
Proof.
  intros W0.
  apply (fetch_root_rejection W0 Sample.plain Sample.book None Cases.lost
           (entry_heap Sample.book None)).
  reflexivity.
Defined.

Lemma fetch_resolves_model_only_with_rows_witness :
  let W0 := Sample.world "id" Sample.library_db in
  let opts := Some Sample.related_options in
  result_of (run (fetch W0 Sample.plain opts) Sample.blank) = Resolved This
  /\ exists (row : object) (rest : list object) (h1 : heap)
           (pre : list event),
       sync_first W0 (entry_heap Sample.blank opts)
       = (Resolved (Some (row :: rest)), h1)
       /\ trace_of (run (fetch W0 Sample.plain opts) Sample.blank)
          = pre ++ [CallTrigger "fetched" (VArr (VObj <$> row :: rest))]
       /\ In (CallSet (parse W0 row)) pre.
Proof.
  intros W0 opts. split; [reflexivity|].
  apply (fetch_resolves_model_only_with_rows W0 Sample.plain Sample.blank opts).
  reflexivity.
Defined.

Lemma fetch_eager_failure_skips_fetched_witness :
  let W0 := Sample.world "id" Sample.library_db in
  let opts := Some Cases.unknown_related in
  let h1 := entry_heap Sample.blank opts in
  let e := Thrown PlainError "relation is not defined on the model." in
  let m3 := loaded W0 Sample.plain Sample.book_row Sample.blank in
  let r := run (fetch W0 Sample.plain opts) Sample.blank in
  result_of r = settle_fetch (Rejected e)
  /\ this (heap_of r) = m3
  /\ In (CallSet (parse W0 Sample.book_row)) (trace_of r)
  /\ forall (names : string) (arg : value),
       ~ In (CallTrigger names arg) (trace_of r).
Proof.
  intros W0 opts h1 e m3.
  apply (fetch_eager_failure_skips_fetched W0 Sample.plain Sample.blank opts
           Sample.book_row [] h1 e m3); reflexivity.
Defined.

(** * Further properties of [save] *)

Section SaveMore.

Variable W : collaborators.
Variable P : prototype.

(** From the response on, [save] adds nothing to the trace or the [_reset]
    and the post-save events. *)
Lemma after_write_trace (method : string) (resp : value) (h : heap)
    (tr : list event) :
  exists suffix : list event,
    snd (snd (after_write W P method resp (h, tr))) = tr ++ suffix
    /\ (suffix = []
        \/ exists names : string, suffix = [CallReset; CallTrigger names resp]).
Proof.
  unfold after_write, save_response. chain.
  destruct ((method =? "insert") && is_nullish (id (this h))); simpl.
  - destruct (index0 resp) as [v|e]; simpl.
    + destruct (triggerThen W _ _ _) as [[[]|e] h3]; simpl;
        rewrite <- ?app_assoc; eexists; split; eauto.
    + exists []. rewrite app_nil_r. auto.
  - destruct ((method =? "update") && is_zero resp); simpl;
      [destruct (is_not_false (prop (options h) "require")); simpl|].
    1: exists []; rewrite app_nil_r; by auto.
    all: destruct (triggerThen W _ _ _) as [[[]|e] h3]; simpl;
      rewrite <- ?app_assoc; eexists; split; eauto.
Qed.

(** The shape of every trace of [save]. *)
Lemma save_trace_shape (m : model) (args : save_args) :
  exists rest : list event,
    trace_of (run (save W P args) m)
    = prepare_trace W P m args
      ++ CallTrigger (pre_events W m args) (VObj (attrs (prepared W P m args)))
         :: rest
    /\ (rest = []
        \/ exists (d : string) (data : object) (suffix : list event),
             rest = CallSync d data :: suffix
             /\ (suffix = []
                 \/ exists (names : string) (resp : value),
                      suffix = [CallReset; CallTrigger names resp])).
Proof.
  rewrite save_run. cbv zeta. unfold trace_of.
  destruct (triggerThen W _ _ _) as [[[]|e] h1]; cbn [fst snd].
  2:{ exists []. auto. }
  destruct (prop (options h1) "method") as [| | | |d| | |] eqn:Hd;
    cbn [fst snd]; try (exists []; by auto).
  destruct (sync_write W d _ h1) as [resp|e]; cbn [fst snd].
  - destruct (after_write_trace (save_method W m args) resp h1
                ((prepare_trace W P m args
                  ++ [CallTrigger (pre_events W m args)
                        (VObj (attrs (prepared W P m args)))])
                 ++ [CallSync d (write_data (save_method W m args) h1)]))
      as (suffix & -> & Hsuffix).
    exists (CallSync d (write_data (save_method W m args) h1) :: suffix).
    split; [by rewrite <- !app_assoc|].
    right. exists d, (write_data (save_method W m args) h1), suffix.
    split; [done|]. destruct Hsuffix as [->|[names ->]]; eauto.
  - exists [CallSync d (write_data (save_method W m args) h1)].
    split; [by rewrite <- !app_assoc|]. right. eauto 10.
Qed.

(** X9: every [save] issues at most one write, and none before the
    pre-save events have been triggered: whatever the handlers and the
    database answer, the trace splits at that trigger into a part without a
    write and a part with at most one. *)
Theorem save_at_most_one_write (m : model) (args : save_args) :
  exists before after : list event,
    trace_of (run (save W P args) m)
    = before
      ++ CallTrigger (pre_events W m args) (VObj (attrs (prepared W P m args)))
         :: after
    /\ writes before = []
    /\ length (writes after) <= 1
    /\ length (writes (trace_of (run (save W P args) m))) <= 1.
Proof.
  destruct (save_trace_shape m args) as (rest & Htrace & Hrest).
  assert (writes (prepare_trace W P m args) = []) as Hprep.
  { unfold writes, prepare_trace.
    destruct (truthy (hasTimestamps P)); by destruct (constraint_of P). }
  assert (length (writes rest) <= 1) as Hone.
  { destruct Hrest as [->|(d & data & suffix & -> & Hsuffix)]; simpl; [lia|].
    destruct Hsuffix as [->|(names & resp & ->)]; simpl; lia. }
  exists (prepare_trace W P m args), rest.
  split; [exact Htrace|]. split; [exact Hprep|]. split; [exact Hone|].
  rewrite Htrace. unfold writes in *.
  rewrite List.filter_app, length_app, Hprep. simpl. lia.
Qed.

(** X10: [save] applies the save constraints of the relation the model came
    through exactly when there is such a relation and it is not a [morphTo]
    relation. *)
Theorem save_constraints_iff (m : model) (args : save_args) :
  In CallSaveConstraints (trace_of (run (save W P args) m))
  <-> exists rd : related,
        relatedData P = Some rd /\ (rel_type rd =? "morphTo") = false.
Proof.
  destruct (save_trace_shape m args) as (rest & -> & Hrest).
  rewrite in_app_iff. unfold prepare_trace, constraint_of.
  assert (~ In CallSaveConstraints
              (CallTrigger (pre_events W m args)
                 (VObj (attrs (prepared W P m args))) :: rest)) as Hrest'.
  { destruct Hrest as [->|(d & data & suffix & -> & Hsuffix)];
      [simpl; intuition discriminate|].
    destruct Hsuffix as [->|(names & resp & ->)];
      simpl; intuition discriminate. }
  split.
  - intros [Hin|Hin]; [|done].
    destruct (relatedData P) as [rd|]; simpl in Hin.
    + exists rd. split; [done|].
      destruct (rel_type rd =? "morphTo"); [|done].
      destruct (truthy (hasTimestamps P)); simpl in Hin;
        intuition discriminate.
    + destruct (truthy (hasTimestamps P)); simpl in Hin;
        intuition discriminate.
  - intros (rd & -> & Hrd). rewrite Hrd. left.
    destruct (truthy (hasTimestamps P)); simpl; auto.
Qed.

(** X11: [save] stamps the model exactly when [hasTimestamps] is truthy,
    once, with the method it has chosen, and after the attributes have been
    set. *)
Theorem save_timestamp_iff (m : model) (args : save_args) (method : string) :
  In (CallTimestamp method) (trace_of (run (save W P args) m))
  <-> truthy (hasTimestamps P) = true
      /\ method = save_method W m args
      /\ exists rest : list event,
           trace_of (run (save W P args) m)
           = CallSet (merged_attrs W P m args) :: CallTimestamp method :: rest.
Proof.
  destruct (save_trace_shape m args) as (rest & -> & Hrest).
  unfold prepare_trace.
  assert (~ In (CallTimestamp method)
              (CallTrigger (pre_events W m args)
                 (VObj (attrs (prepared W P m args))) :: rest)) as Hrest'.
  { destruct Hrest as [->|(d & data & suffix & -> & Hsuffix)];
      [simpl; intuition discriminate|].
    destruct Hsuffix as [->|(names & resp & ->)];
      simpl; intuition discriminate. }
  split.
  - rewrite in_app_iff. intros [Hin|Hin]; [|done].
    destruct (truthy (hasTimestamps P)); simpl in Hin.
    + destruct Hin as [Hin|[Hin|Hin]]; [discriminate Hin| |].
      * injection Hin as <-. split; [done|]. split; [done|].
        simpl. eauto.
      * exfalso. destruct (constraint_of P); simpl in Hin;
          intuition discriminate.
    + exfalso. destruct (constraint_of P); simpl in Hin;
        intuition discriminate.
  - intros (Hts & -> & _). rewrite Hts. simpl. auto.
Qed.

(** X12: when [save] merges the defaults (an insert, or [options.defaults]
    given, on a model class with defaults), the attributes it sets are
    chosen key by key: the value given to [save] if there is one, else the
    model's current attribute, else the default. *)
Theorem save_merges_defaults (m : model) (args : save_args) (d : object) :
  (save_method W m args =? "insert")
  || truthy (prop (save_options args) "defaults") = true ->
  defaults P = Some d ->
  exists (data : object) (rest : list event),
    trace_of (run (save W P args) m) = CallSet data :: rest
    /\ forall k : string,
         data !! k
         = match save_attrs args !! k with
           | Some v => Some v
           | None =>
               match attributes m !! k with
               | Some v => Some v
               | None => d !! k
               end
           end.
Proof.
  intros Hmerge Hd.
  destruct (save_trace_shape m args) as (rest & Htrace & _).
  exists (merged_attrs W P m args). eexists.
  split; [rewrite Htrace; unfold prepare_trace; simpl; reflexivity|].
  intros k. unfold merged_attrs. rewrite Hmerge, Hd.
  rewrite !lookup_union.
  destruct (save_attrs args !! k), (attributes m !! k), (d !! k); reflexivity.
Qed.

(** X13: an update without [options.defaults], or a save on a model class
    without defaults, sets exactly the attributes given to [save]: the
    defaults are not applied and the current attributes are not set
    again. *)
Theorem save_skips_defaults (m : model) (args : save_args) :
  (save_method W m args =? "insert")
  || truthy (prop (save_options args) "defaults") = false
  \/ defaults P = None ->
  exists rest : list event,
    trace_of (run (save W P args) m) = CallSet (save_attrs args) :: rest.
Proof.
  intros Hskip.
  destruct (save_trace_shape m args) as (rest & Htrace & _).
  eexists. rewrite Htrace. unfold prepare_trace. simpl.
  f_equal. f_equal. unfold merged_attrs.
  destruct Hskip as [-> | ->]; [reflexivity|].
  by destruct ((save_method W m args =? "insert")
               || truthy (prop (save_options args) "defaults")).
Qed.

(** X14: a patching update of a model with timestamps writes the [attrs],
    not the model's attributes, and the [attrs] carry every value
    [timestamp] returned, on top of what was given to [save] (provided the
    handlers left the [attrs] alone). *)
Theorem save_patch_writes_stamped_attrs (m : model) (args : save_args)
    (h1 : heap) :
  save_method W m args = "update" ->
  truthy (hasTimestamps P) = true ->
  triggerThen W "updating saving" (VObj (attrs (prepared W P m args)))
    (prepared W P m args) = (Resolved tt, h1) ->
  prop (options h1) "method" = VStr "update" ->
  truthy (prop (options h1) "patch") = true ->
  attrs h1 = attrs (prepared W P m args) ->
  let vals :=
    fst (timestamp W "update" (set W (merged_attrs W P m args) m)) in
  In (CallSync "update" (attrs h1)) (trace_of (run (save W P args) m))
  /\ (forall (k : string) (v : value),
        vals !! k = Some v -> attrs h1 !! k = Some v)
  /\ (forall k : string,
        vals !! k = None -> attrs h1 !! k = merged_attrs W P m args !! k).
Proof.
  intros Hmethod Hstamps Hpre Hdispatch Hpatch Hattrs vals. subst vals.
  split.
  - rewrite save_run. cbv zeta. unfold pre_events, write_data, trace_of.
    rewrite Hmethod. simpl String.eqb. cbv iota.
    rewrite Hpre, Hdispatch, Hpatch. simpl andb. cbv iota.
    destruct (sync_write W "update" (attrs h1) h1) as [resp|e];
      cbn [fst snd].
    + destruct (after_write_trace "update" resp h1
                  ((prepare_trace W P m args
                    ++ [CallTrigger "updating saving"
                          (VObj (attrs (prepared W P m args)))])
                   ++ [CallSync "update" (attrs h1)]))
        as (suffix & -> & _).
      rewrite !in_app_iff. simpl. auto.
    + rewrite !in_app_iff. simpl. auto.
  - rewrite Hattrs. unfold prepared, stamped_attrs. simpl.
    rewrite Hstamps, Hmethod. split.
    + intros k v Hk. by apply lookup_union_Some_l.
    + intros k Hk. by apply lookup_union_r.
Qed.

(** X15: when the database rejects the write of a [save], the promise is
    rejected with the same reason right after the write: the model is as
    the pre-save handlers left it, [_reset] is not called and no post-save
    event is triggered. *)
Theorem save_write_rejection (m : model) (args : save_args) (h1 : heap)
    (d : string) (e : reason) :
  triggerThen W (pre_events W m args) (VObj (attrs (prepared W P m args)))
    (prepared W P m args) = (Resolved tt, h1) ->
  prop (options h1) "method" = VStr d ->
  sync_write W d (write_data (save_method W m args) h1) h1 = Rejected e ->
  let r := run (save W P args) m in
  result_of r = Rejected e
  /\ heap_of r = h1
  /\ trace_of r
     = prepare_trace W P m args
       ++ [CallTrigger (pre_events W m args)
             (VObj (attrs (prepared W P m args)));
           CallSync d (write_data (save_method W m args) h1)]
  /\ ~ In CallReset (trace_of r).
Proof.
  intros Hpre Hdispatch Hwrite r. subst r.
  rewrite save_run. cbv zeta. rewrite Hpre, Hdispatch, Hwrite.
  unfold result_of, heap_of, trace_of. cbn [fst snd].
  split; [done|]. split; [done|]. split; [by rewrite <- app_assoc|].
  rewrite !in_app_iff. unfold prepare_trace.
  destruct (truthy (hasTimestamps P)); destruct (constraint_of P);
    simpl; intuition discriminate.
Qed.

(** X16: an insert on a model that has an id by the time the write is
    answered leaves the model alone: whatever the database answers ([null]
    included), the id and the attributes are not touched by the response, and
    [_reset] and the [created saved] handlers follow. *)
Theorem save_insert_keeps_known_id (m : model) (args : save_args)
    (h1 : heap) (resp : value) :
  save_method W m args = "insert" ->
  triggerThen W "creating saving" (VObj (attrs (prepared W P m args)))
    (prepared W P m args) = (Resolved tt, h1) ->
  prop (options h1) "method" = VStr "insert" ->
  sync_write W "insert" (attributes (this h1)) h1 = Resolved resp ->
  is_nullish (id (this h1)) = false ->
  exists (h2 : heap) (t : list event),
    this h2 = _reset W (this h1)
    /\ run (save W P args) m
       = match triggerThen W "created saved" resp h2 with
         | (Resolved _, h3) => (Resolved This, (h3, t))
         | (Rejected e, h3) => (Rejected e, (h3, t))
         end.
Proof.
  intros Hmethod Hpre Hdispatch Hwrite Hknown.
  rewrite save_run. cbv zeta. unfold pre_events, write_data.
  rewrite Hmethod. simpl String.eqb. cbv iota. simpl andb. cbv iota.
  rewrite Hpre, Hdispatch, Hwrite, (after_insert_known _ _ _ _ _ Hknown).
  unfold saved_step. cbn [fst snd].
  eexists. eexists. split; [|reflexivity]. reflexivity.
Qed.

(** X17: an insert on a model without id that the database answers with
    [null] or [undefined] is rejected with a [TypeError] ([resp[0]] cannot be
    read), after the insert has been issued: the model keeps no id, [_reset]
    is not called and no post-save event is triggered. *)
Theorem save_insert_unanswered (m : model) (args : save_args)
    (h1 : heap) (resp : value) :
  save_method W m args = "insert" ->
  triggerThen W "creating saving" (VObj (attrs (prepared W P m args)))
    (prepared W P m args) = (Resolved tt, h1) ->
  prop (options h1) "method" = VStr "insert" ->
  sync_write W "insert" (attributes (this h1)) h1 = Resolved resp ->
  is_nullish (id (this h1)) = true ->
  is_nullish resp = true ->
  let r := run (save W P args) m in
  rejects_with TypeError (result_of r)
  /\ heap_of r = h1
  /\ trace_of r
     = prepare_trace W P m args
       ++ [CallTrigger "creating saving" (VObj (attrs (prepared W P m args)));
           CallSync "insert" (attributes (this h1))].
Proof.
  intros Hmethod Hpre Hdispatch Hwrite Hnew Hresp r. subst r.
  rewrite save_run. cbv zeta. unfold pre_events, write_data.
  rewrite Hmethod. simpl String.eqb. cbv iota. simpl andb. cbv iota.
  rewrite Hpre, Hdispatch, Hwrite.
  unfold after_write, save_response. chain. rewrite Hnew.
  destruct resp; try discriminate Hresp; simpl.
  all: split; [by eexists|]; split; [done|]; by rewrite <- app_assoc.
Qed.


(** X19: after an update that is not refused for want of rows, the
    [updated saved] handlers receive the model already [_reset], and find in
    [options.previousAttributes] the previous attributes the model had
    before that reset; the other options are unchanged. *)
Theorem save_update_exposes_previous_attributes (m : model)
    (args : save_args) (h1 : heap) (resp : value) :
  save_method W m args = "update" ->
  triggerThen W "updating saving" (VObj (attrs (prepared W P m args)))
    (prepared W P m args) = (Resolved tt, h1) ->
  prop (options h1) "method" = VStr "update" ->
  sync_write W "update" (write_data "update" h1) h1 = Resolved resp ->
  is_zero resp && is_not_false (prop (options h1) "require") = false ->
  exists (h2 : heap) (t : list event),
    options h2 !! "previousAttributes"
    = Some (VObj (_previousAttributes (this h1)))
    /\ (forall k : string,
          k <> "previousAttributes" -> options h2 !! k = options h1 !! k)
    /\ this h2 = _reset W (this h1)
    /\ run (save W P args) m
       = match triggerThen W "updated saved" resp h2 with
         | (Resolved _, h3) => (Resolved This, (h3, t))
         | (Rejected e, h3) => (Rejected e, (h3, t))
         end.
Proof.
  intros Hmethod Hpre Hdispatch Hwrite Hpass.
  rewrite save_run. cbv zeta. unfold pre_events.
  rewrite Hmethod. simpl String.eqb. cbv iota.
  rewrite Hpre, Hdispatch, Hwrite, after_update, Hpass.
  unfold saved_step. cbn [fst snd].
  eexists. eexists. split; [|split; [|split; [|reflexivity]]].
  - cbn [options with_this with_options]. apply lookup_insert_eq.
  - intros k Hk. cbn [options with_this with_options].
    by rewrite lookup_insert_ne.
  - reflexivity.
Qed.

(** Outside an update, a [NoRowsUpdatedError] can only come from the
    post-save handlers. *)
Lemma after_write_no_rows_error (method : string) (resp : value)
    (s : state) :
  (method =? "update") = false ->
  rejects_with NoRowsUpdatedError (fst (after_write W P method resp s)) ->
  exists (names : string) (h : heap),
    rejects_with NoRowsUpdatedError (fst (triggerThen W names resp h)).
Proof.
  intros Hmethod. destruct s as [h1 tr].
  unfold after_write, save_response. chain. rewrite Hmethod.
  rewrite andb_false_l.
  destruct ((method =? "insert") && is_nullish (id (this h1))); simpl.
  - destruct (index0 resp) as [v|e] eqn:Hv; simpl.
    + destruct (triggerThen W _ _ _) as [[[]|e] h3] eqn:Hh; simpl.
      * intros [msg Hmsg]. discriminate Hmsg.
      * intros [msg [= ->]]. eexists _, _. rewrite Hh. by eexists.
    + intros [msg Hmsg]. exfalso.
      destruct resp; simpl in Hv; try discriminate Hv.
      all: try (destruct s; discriminate Hv).
      all: injection Hv as <-; discriminate Hmsg.
  - destruct (triggerThen W _ _ _) as [[[]|e] h3] eqn:Hh; simpl.
    + intros [msg Hmsg]. discriminate Hmsg.
    + intros [msg [= ->]]. eexists _, _. rewrite Hh. by eexists.
Qed.

(** X20: [require] concerns updates only: a save whose method is not
    [update] never raises [NoRowsUpdatedError] itself, whatever the write
    returns ([0] included) and whatever [options.require] holds. *)
Theorem save_no_rows_error_needs_update (m : model) (args : save_args)
    (h1 : heap) (d : string) (resp : value) :
  (save_method W m args =? "update") = false ->
  triggerThen W (pre_events W m args) (VObj (attrs (prepared W P m args)))
    (prepared W P m args) = (Resolved tt, h1) ->
  prop (options h1) "method" = VStr d ->
  sync_write W d (write_data (save_method W m args) h1) h1 = Resolved resp ->
  (forall (names : string) (h : heap),
     ~ rejects_with NoRowsUpdatedError (fst (triggerThen W names resp h))) ->
  ~ rejects_with NoRowsUpdatedError (result_of (run (save W P args) m)).
Proof.
  intros Hmethod Hpre Hdispatch Hwrite Hpost.
  rewrite save_run. cbv zeta. rewrite Hpre, Hdispatch, Hwrite.
  unfold result_of. intros Hrej.
  destruct (after_write_no_rows_error _ _ _ Hmethod Hrej) as (names & h & Hh).
  exact (Hpost names h Hh).
Qed.

End SaveMore.

Lemma save_merges_defaults_witness :
  let W0 := Sample.world "id" Sample.serial_db in
  let args := SaveKeyVal "title" (VStr "X") None in
  let d : object := {[ "status" := VStr "draft"; "title" := VStr "untitled" ]} in
  exists (data : object) (rest : list event),
    trace_of (run (save W0 Cases.drafted args) Sample.blank)
    = CallSet data :: rest
    /\ forall k : string,
         data !! k
         = match save_attrs args !! k with
           | Some v => Some v
           | None =>
               match attributes Sample.blank !! k with
               | Some v => Some v
               | None => d !! k
               end
           end.
Proof.
  intros W0 args d.
  apply (save_merges_defaults W0 Cases.drafted Sample.blank args d);
    reflexivity.
Defined.

Lemma save_skips_defaults_witness :
  let W0 := Sample.world "id" Sample.library_db in
  let args := SaveKeyVal "title" (VStr "Y") None in
  exists rest : list event,
    trace_of (run (save W0 Cases.drafted args) Sample.book)
    = CallSet (save_attrs args) :: rest.
Proof.
  intros W0 args.
  apply (save_skips_defaults W0 Cases.drafted Sample.book args).
  left. reflexivity.
Defined.

Lemma save_patch_writes_stamped_attrs_witness :
  let W0 := Sample.world "id" Sample.library_db in
  let P0 := Cases.drafted in
  let args := SaveKeyVal "title" (VStr "Y") (Some Cases.patching) in
  let h1 := prepared W0 P0 Sample.book args in
  let vals :=
    fst (timestamp W0 "update"
           (set W0 (merged_attrs W0 P0 Sample.book args) Sample.book)) in
  In (CallSync "update" (attrs h1))
     (trace_of (run (save W0 P0 args) Sample.book))
  /\ (forall (k : string) (v : value),
        vals !! k = Some v -> attrs h1 !! k = Some v)
  /\ (forall k : string,
        vals !! k = None
        -> attrs h1 !! k = merged_attrs W0 P0 Sample.book args !! k).
Proof.
  intros W0 P0 args h1.
  apply (save_patch_writes_stamped_attrs W0 P0 Sample.book args h1);
    reflexivity.
Defined.

Lemma save_write_rejection_witness :
  let W0 := Sample.world "id" Cases.down_db in
  let args := SaveAttrs None None in
  let h1 := prepared W0 Sample.plain Sample.book args in
  let r := run (save W0 Sample.plain args) Sample.book in
  result_of r = Rejected Cases.lost
  /\ heap_of r = h1
  /\ trace_of r
     = prepare_trace W0 Sample.plain Sample.book args
       ++ [CallTrigger (pre_events W0 Sample.book args)
             (VObj (attrs (prepared W0 Sample.plain Sample.book args)));
           CallSync "update"
             (write_data (save_method W0 Sample.book args) h1)]
  /\ ~ In CallReset (trace_of r).
Proof.
  intros W0 args h1.
  apply (save_write_rejection W0 Sample.plain Sample.book args h1 "update"
           Cases.lost); reflexivity.
Defined.

Lemma save_insert_keeps_known_id_witness :
  let W0 := Sample.world "id" Sample.keyed_db in
  let P0 := Sample.stamped in
  let args := SaveAttrs None None in
  let h0 := prepared W0 P0 Sample.blank args in
  let h1 := snd (Sample.assign_key "creating saving" (VObj (attrs h0)) h0) in
  id (this h1) = VStr "abc"
  /\ exists (h2 : heap) (t : list event),
       this h2 = _reset W0 (this h1)
       /\ run (save W0 P0 args) Sample.blank
          = match triggerThen W0 "created saved" (VArr [VNum 1]) h2 with
            | (Resolved _, h3) => (Resolved This, (h3, t))
            | (Rejected e, h3) => (Rejected e, (h3, t))
            end.
Proof.
  intros W0 P0 args h0 h1. split; [reflexivity|].
  apply (save_insert_keeps_known_id W0 P0 Sample.blank args h1
           (VArr [VNum 1])); reflexivity.
Defined.

Lemma save_insert_unanswered_witness :
  let W0 := Sample.world "id" Cases.void_db in
  let args := SaveAttrs None None in
  let h1 := prepared W0 Sample.plain Sample.blank args in
  let r := run (save W0 Sample.plain args) Sample.blank in
  rejects_with TypeError (result_of r)
  /\ heap_of r = h1
  /\ trace_of r
     = prepare_trace W0 Sample.plain Sample.blank args
       ++ [CallTrigger "creating saving"
             (VObj (attrs (prepared W0 Sample.plain Sample.blank args)));
           CallSync "insert" (attributes (this h1))].
Proof.
  intros W0 args h1.
  apply (save_insert_unanswered W0 Sample.plain Sample.blank args h1
           VUndefined); reflexivity.
Defined.

Lemma save_update_exposes_previous_attributes_witness :
  let W0 := Sample.world "id" Sample.library_db in
  let args := SaveKeyVal "title" (VStr "Y") None in
  let h1 := prepared W0 Sample.plain Sample.book args in
  exists (h2 : heap) (t : list event),
    options h2 !! "previousAttributes"
    = Some (VObj (_previousAttributes (this h1)))
    /\ (forall k : string,
          k <> "previousAttributes" -> options h2 !! k = options h1 !! k)
    /\ this h2 = _reset W0 (this h1)
    /\ run (save W0 Sample.plain args) Sample.book
       = match triggerThen W0 "updated saved" (VNum 1) h2 with
         | (Resolved _, h3) => (Resolved This, (h3, t))
         | (Rejected e, h3) => (Rejected e, (h3, t))
         end.
Proof.
  intros W0 args h1.
  apply (save_update_exposes_previous_attributes W0 Sample.plain Sample.book
           args h1 (VNum 1)); reflexivity.
Defined.

Lemma save_no_rows_error_needs_update_witness :
  let W0 := Sample.world "id" Sample.empty_db in
  let args := SaveAttrs None (Some ({[ "require" := VBool true ]} : object)) in
  save_method W0 Sample.blank args = "insert"
  /\ Sample.write Sample.empty_db "insert" (attributes Sample.blank)
     = Resolved (VNum 0)
  /\ ~ rejects_with NoRowsUpdatedError
       (result_of (run (save W0 Sample.plain args) Sample.blank)).
Proof.
  intros W0 args. split; [reflexivity|]. split; [reflexivity|].
  apply (save_no_rows_error_needs_update W0 Sample.plain Sample.blank args
           (prepared W0 Sample.plain Sample.blank args) "insert" (VNum 0));
    try reflexivity.
  intros names h [msg Hmsg]. discriminate Hmsg.
Defined.

(** * Further properties of [destroy] *)

Section DestroyMore.

Variable W : collaborators.

(** X21: a [destroy] that is not refused for want of rows (no truthy
    [require], or rows were deleted) clears the model after the delete and
    before the [destroyed] handlers, calls [_reset] last and resolves to the
    model; without [require] this holds also when no row was deleted. *)
Theorem destroy_clears_then_resets (m : model) (opts : option object)
    (h1 h3 : heap) (resp : value) :
  triggerThen W "destroying" VUndefined (destroy_heap W m opts)
  = (Resolved tt, h1) ->
  sync_del W h1 = Resolved resp ->
  truthy (prop (options h1) "require") && is_zero resp = false ->
  triggerThen W "destroyed" resp (with_this (clear W (this h1)) h1)
  = (Resolved tt, h3) ->
  run (destroy W opts) m
  = (Resolved This,
     (with_this (_reset W (this h3)) h3,
      [CallTrigger "destroying" VUndefined; CallDel; CallClear;
       CallTrigger "destroyed" resp; CallReset])).
Proof.
  intros Hpre Hdel Hpass Hpost.
  rewrite destroy_run. cbv zeta. by rewrite Hpre, Hdel, Hpass, Hpost.
Qed.

(** X22: when the delete of a [destroy] is rejected, the promise is
    rejected with the same reason and the model is not cleared: it is as the
    [destroying] handlers left it. *)
Theorem destroy_delete_rejection (m : model) (opts : option object)
    (h1 : heap) (e : reason) :
  triggerThen W "destroying" VUndefined (destroy_heap W m opts)
  = (Resolved tt, h1) ->
  sync_del W h1 = Rejected e ->
  run (destroy W opts) m
  = (Rejected e, (h1, [CallTrigger "destroying" VUndefined; CallDel])).
Proof.
  intros Hpre Hdel. rewrite destroy_run. cbv zeta. by rewrite Hpre, Hdel.
Qed.

(** X23: when a [destroyed] handler fails, the promise is rejected with
    its error although the row is deleted and the model cleared: the
    handlers received the cleared model, and [_reset] is not called. *)
Theorem destroyed_handler_failure (m : model) (opts : option object)
    (h1 h3 : heap) (resp : value) (e : reason) :
  triggerThen W "destroying" VUndefined (destroy_heap W m opts)
  = (Resolved tt, h1) ->
  sync_del W h1 = Resolved resp ->
  truthy (prop (options h1) "require") && is_zero resp = false ->
  triggerThen W "destroyed" resp (with_this (clear W (this h1)) h1)
  = (Rejected e, h3) ->
  run (destroy W opts) m
  = (Rejected e,
     (h3, [CallTrigger "destroying" VUndefined; CallDel; CallClear;
           CallTrigger "destroyed" resp])).
Proof.
  intros Hpre Hdel Hpass Hpost.
  rewrite destroy_run. cbv zeta. by rewrite Hpre, Hdel, Hpass, Hpost.
Qed.

(** X24: every [destroy] triggers [destroying] first, issues at most one
    write, which is the delete, and never clears the model without having
    issued the delete. *)
Theorem destroy_at_most_one_delete (m : model) (opts : option object) :
  let t := trace_of (run (destroy W opts) m) in
  (exists after : list event,
     t = CallTrigger "destroying" VUndefined :: after)
  /\ (writes t = [] \/ writes t = [CallDel])
  /\ (In CallClear t -> In CallDel t).
Proof.
  rewrite destroy_run. cbv zeta. unfold trace_of, writes.
  destruct (triggerThen W _ _ _) as [[[]|e] h1]; cbn [fst snd].
  2:{ split; [by eexists|]. split; [by left|].
      simpl. intuition discriminate. }
  destruct (sync_del W h1) as [resp|e]; cbn [fst snd].
  2:{ split; [by eexists|]. split; [by right|]. simpl. auto. }
  destruct (truthy (prop (options h1) "require") && is_zero resp);
    cbn [fst snd].
  1:{ split; [by eexists|]. split; [by right|]. simpl. auto. }
  destruct (triggerThen W _ _ _) as [[[]|e] h3]; cbn [fst snd].
  all: split; [by eexists|]; split; [by right|]; simpl; auto.
Qed.

End DestroyMore.

Lemma destroy_clears_then_resets_witness :
  let W0 := Sample.world "id" Sample.empty_db in
  let h1 := destroy_heap W0 Sample.book None in
  let h3 := with_this (clear W0 (this h1)) h1 in
  Sample.del Sample.empty_db = Resolved (VNum 0)
  /\ attributes (this h3) = ∅
  /\ run (destroy W0 None) Sample.book
     = (Resolved This,
        (with_this (_reset W0 (this h3)) h3,
         [CallTrigger "destroying" VUndefined; CallDel; CallClear;
          CallTrigger "destroyed" (VNum 0); CallReset])).
Proof.
  intros W0 h1 h3. split; [reflexivity|]. split; [reflexivity|].
  apply (destroy_clears_then_resets W0 Sample.book None h1 h3 (VNum 0));
    reflexivity.
Defined.

Lemma destroy_delete_rejection_witness :
  let W0 := Sample.world "id" Cases.down_db in
  let h1 := destroy_heap W0 Sample.book None in
  attributes (this h1) = attributes Sample.book
  /\ run (destroy W0 None) Sample.book
     = (Rejected Cases.lost,
        (h1, [CallTrigger "destroying" VUndefined; CallDel])).
Proof.
  intros W0 h1. split; [reflexivity|].
  apply (destroy_delete_rejection W0 Sample.book None h1 Cases.lost);
    reflexivity.
Defined.

Lemma destroyed_handler_failure_witness :
  let W0 := Sample.world "id" Cases.late_db in
  let h1 := destroy_heap W0 Sample.book None in
  let h3 := with_this (clear W0 (this h1)) h1 in
  run (destroy W0 None) Sample.book
  = (Rejected (Thrown PlainError "handler failed"),
     (h3, [CallTrigger "destroying" VUndefined; CallDel; CallClear;
           CallTrigger "destroyed" (VNum 1)])).
Proof.
  intros W0 h1 h3.
  apply (destroyed_handler_failure W0 Sample.book None h1 h3 (VNum 1)
           (Thrown PlainError "handler failed")); reflexivity.
Defined.

(** * Further properties of the relation constructors *)

Section RelationsMore.

Variable W : collaborators.


(** X26: [morphOne] and [morphMany] take their third argument as the column
    names only when it is an array.  Otherwise it is taken as the morph
    value, there are no column names, and the fourth argument is ignored
    altogether; with an array, the fourth argument is the morph value. *)
Theorem morph_value_shift (m : model)
    (Target name columnNames morphValue : value) (type : string) :
  truthy name = true ->
  truthy Target = true ->
  exists o : object,
    _morphOneOrMany W m Target name columnNames morphValue type
    = (Returns (_relation W type Target o m), [CallRelation type Target o])
    /\ o !! "morphName" = Some name
    /\ (isArray columnNames = false ->
        o !! "morphValue" = Some columnNames
        /\ o !! "columnNames" = Some VNull
        /\ forall other : value,
             _morphOneOrMany W m Target name columnNames other type
             = _morphOneOrMany W m Target name columnNames morphValue type)
    /\ (isArray columnNames = true ->
        o !! "morphValue" = Some morphValue
        /\ o !! "columnNames" = Some columnNames).
Proof.
  intros Hname Htarget. unfold _morphOneOrMany.
  destruct (isArray columnNames) eqn:Harr; cbn [negb];
    rewrite Hname, Htarget; cbn [negb orb].
  all: eexists; split; [reflexivity|]; split;
    [by rewrite lookup_insert_eq|].
  all: split; [intros Hcase; try discriminate Hcase
              |intros Hcase; try discriminate Hcase].
  - split; [by rewrite lookup_insert_ne, lookup_insert_eq|].
    by rewrite !lookup_insert_ne, ?lookup_singleton_eq.
  - split; [by rewrite lookup_insert_ne, lookup_insert_eq|].
    split; [by rewrite !lookup_insert_ne, ?lookup_singleton_eq|].
    intros other. reflexivity.
Qed.


End RelationsMore.

Lemma morph_value_shift_witness :
  let W0 := Sample.world "id" Sample.library_db in
  exists o : object,
    _morphOneOrMany W0 Sample.blank (VRef 5) (VStr "imageable") VUndefined
      (VStr "photos") "morphOne"
    = (Returns (_relation W0 "morphOne" (VRef 5) o Sample.blank),
       [CallRelation "morphOne" (VRef 5) o])
    /\ o !! "morphName" = Some (VStr "imageable")
    /\ (isArray VUndefined = false ->
        o !! "morphValue" = Some VUndefined
        /\ o !! "columnNames" = Some VNull
        /\ forall other : value,
             _morphOneOrMany W0 Sample.blank (VRef 5) (VStr "imageable")
               VUndefined other "morphOne"
             = _morphOneOrMany W0 Sample.blank (VRef 5) (VStr "imageable")
                 VUndefined (VStr "photos") "morphOne")
    /\ (isArray VUndefined = true ->
        o !! "morphValue" = Some (VStr "photos")
        /\ o !! "columnNames" = Some VUndefined).
Proof.
  intros W0.
  apply (morph_value_shift W0 Sample.blank (VRef 5) (VStr "imageable")
           VUndefined (VStr "photos") "morphOne"); reflexivity.
Defined.
